(** * The outbound media-stream relay

    A shallow embedding of the [/outbound-media-stream] WebSocket handler
    of [src/outbound.js] and of its near-duplicate [src/unnamed/part_000]:
    the four captured variables of the handler become a record, the event
    listeners become programs in a small state/exception/output monad, and
    a session is the run of the listeners over the list of events that the
    two sockets deliver. *)

From Stdlib Require Import String Ascii ZArith List Bool Lia.
Import ListNotations.
Open Scope string_scope.
Open Scope list_scope.
Set Warnings "-register-all".

(** ** JavaScript values *)

(** What [JSON.parse] can return.  Numbers are restricted to integers; an
    object is the list of its own properties. *)
Inductive json : Type :=
| JNull
| JBool (b : bool)
| JNum (n : Z)
| JStr (s : string)
| JArr (items : list json)
| JObj (fields : list (string * json)).

(** A JavaScript value is a JSON value or [undefined]. *)
Definition value : Type := option json.
Definition undefined : value := None.
Definition null : value := Some JNull.

(** ToBoolean. *)
Definition truthy (v : value) : bool :=
  match v with
  | None => false
  | Some JNull => false
  | Some (JBool b) => b
  | Some (JNum n) => negb (n =? 0)%Z
  | Some (JStr s) => negb (s =? "")
  | Some (JArr _) => true
  | Some (JObj _) => true
  end.

(** [a || b] *)
Definition or_else (a b : value) : value := if truthy a then a else b.

(** [v === "s"], as the [case] labels of a [switch] compare. *)
Definition is_str (v : value) (s : string) : bool :=
  match v with
  | Some (JStr t) => t =? s
  | _ => false
  end.

Fixpoint lookup (k : string) (fields : list (string * json)) : value :=
  match fields with
  | [] => None
  | (k', v) :: rest => if k' =? k then Some v else lookup k rest
  end.

(** Reading property [k] of a value that is neither [null] nor
    [undefined]: own properties of an object, [undefined] on anything
    else (none of the names read by the relay is a built-in property). *)
Definition member (j : json) (k : string) : value :=
  match j with
  | JObj fields => lookup k fields
  | _ => None
  end.

(** [v?.k] *)
Definition opt_member (v : value) (k : string) : value :=
  match v with
  | None => None
  | Some j => member j k
  end.

(** An object literal as [JSON.stringify] writes it: properties whose
    value is [undefined] are left out. *)
Fixpoint object (fields : list (string * value)) : list (string * json) :=
  match fields with
  | [] => []
  | (k, Some v) :: rest => (k, v) :: object rest
  | (_, None) :: rest => object rest
  end.

(** ** The session and what it does *)

(** [WebSocket.readyState] *)
Inductive readyState : Type := CONNECTING | OPEN | CLOSING | CLOSED.

(** The variables captured by the listeners of one media stream.
    [elevenLabsWs] is [None] while the variable holds [null] and the
    ready state of the socket once [new WebSocket(signedUrl)] has run.
    [awaiting] is the suspended [await getSignedUrl()] of
    [setupElevenLabs]. *)
Record session : Type := mkSession {
  streamSid : value;
  callSid : value;
  elevenLabsWs : option readyState;
  customParameters : value;
  awaiting : bool
}.

Definition initial : session :=
  {| streamSid := null; callSid := null; elevenLabsWs := None;
     customParameters := null; awaiting := true |}.

Inductive level : Type := log | info | warn | error.

(** The calls the listeners make on the two sockets and on the console.
    A frame is the value handed to [JSON.stringify]; console output keeps
    the level and the fixed part of the text. *)
Inductive action : Type :=
| AgentSend (frame : json)      (* elevenLabsWs.send(JSON.stringify(frame)) *)
| AgentClose                    (* elevenLabsWs.close() *)
| TwilioSend (frame : json)     (* ws.send(JSON.stringify(frame)) *)
| Console (l : level) (text : string).

Inductive exn : Type := SyntaxError | TypeError.

Inductive outcome (A : Type) : Type :=
| Returns (a : A)
| Throws (e : exn).
Arguments Returns {A} a.
Arguments Throws {A} e.

(** A statement: runs in a session, may assign the variables, appends to
    the trace of calls, and returns or throws. *)
Definition M (A : Type) : Type := session -> outcome A * session * list action.

Definition ret {A} (a : A) : M A := fun s => (Returns a, s, []).

Definition bind {A B} (m : M A) (f : A -> M B) : M B :=
  fun s =>
    match m s with
    | (Returns a, s1, o1) =>
        match f a s1 with
        | (r, s2, o2) => (r, s2, o1 ++ o2)
        end
    | (Throws e, s1, o1) => (Throws e, s1, o1)
    end.

Definition throw {A} (e : exn) : M A := fun s => (Throws e, s, []).

(** [try { body } catch (error) { handler }] *)
Definition try_catch (body : M unit) (handler : exn -> M unit) : M unit :=
  fun s =>
    match body s with
    | (Returns a, s1, o1) => (Returns a, s1, o1)
    | (Throws e, s1, o1) =>
        match handler e s1 with
        | (r, s2, o2) => (r, s2, o1 ++ o2)
        end
    end.

Definition read {A} (f : session -> A) : M A := fun s => (Returns (f s), s, []).
Definition assign (f : session -> session) : M unit := fun s => (Returns tt, f s, []).
Definition emit (a : action) : M unit := fun s => (Returns tt, s, [a]).

Notation "x <- m ;; k" := (bind m (fun x => k))
  (at level 61, m at next level, right associativity).
Notation "m ;; k" := (bind m (fun _ => k))
  (at level 61, right associativity).

Definition set_streamSid (v : value) (s : session) : session :=
  {| streamSid := v; callSid := callSid s; elevenLabsWs := elevenLabsWs s;
     customParameters := customParameters s; awaiting := awaiting s |}.
Definition set_callSid (v : value) (s : session) : session :=
  {| streamSid := streamSid s; callSid := v; elevenLabsWs := elevenLabsWs s;
     customParameters := customParameters s; awaiting := awaiting s |}.
Definition set_customParameters (v : value) (s : session) : session :=
  {| streamSid := streamSid s; callSid := callSid s; elevenLabsWs := elevenLabsWs s;
     customParameters := v; awaiting := awaiting s |}.
Definition set_elevenLabsWs (w : option readyState) (s : session) : session :=
  {| streamSid := streamSid s; callSid := callSid s; elevenLabsWs := w;
     customParameters := customParameters s; awaiting := awaiting s |}.
Definition set_awaiting (b : bool) (s : session) : session :=
  {| streamSid := streamSid s; callSid := callSid s; elevenLabsWs := elevenLabsWs s;
     customParameters := customParameters s; awaiting := b |}.

(** The data of a [message] event, as [JSON.parse] sees it: text that is
    not JSON, or the text of a JSON value. *)
Inductive data : Type :=
| NotJSON (text : string)
| Text (j : json).

Definition JSON_parse (d : data) : M json :=
  match d with
  | NotJSON _ => throw SyntaxError
  | Text j => ret j
  end.

(** [v.k]: a TypeError on [null] and [undefined]. *)
Definition prop (v : value) (k : string) : M value :=
  match v with
  | None => throw TypeError
  | Some JNull => throw TypeError
  | Some j => ret (member j k)
  end.

Definition console (l : level) (text : string) : M unit := emit (Console l text).

(** [ws.send(JSON.stringify(frame))] on the telephony socket. *)
Definition ws_send (frame : json) : M unit := emit (TwilioSend frame).

(** [elevenLabsWs.send(JSON.stringify(frame))]: the member access throws
    while the variable is [null]. *)
Definition elevenLabsWs_send (frame : json) : M unit :=
  w <- read elevenLabsWs ;;
  match w with
  | None => throw TypeError
  | Some _ => emit (AgentSend frame)
  end.

(** What [close()] does to the ready state of the socket: an open or
    connecting socket starts closing, a closing or closed one stays. *)
Definition closing (r : readyState) : readyState :=
  match r with
  | CONNECTING => CLOSING
  | OPEN => CLOSING
  | CLOSING => CLOSING
  | CLOSED => CLOSED
  end.

(** [elevenLabsWs.close()] on a socket that exists. *)
Definition elevenLabsWs_close : M unit :=
  w <- read elevenLabsWs ;;
  match w with
  | None => throw TypeError
  | Some r => emit AgentClose ;; assign (set_elevenLabsWs (Some (closing r)))
  end.

(** [elevenLabsWs?.readyState === WebSocket.OPEN] *)
Definition agent_is_open (s : session) : bool :=
  match elevenLabsWs s with
  | Some OPEN => true
  | _ => false
  end.

(** The frames of the two wire formats. *)
Definition initialConfig (prompt first_message : value) : json :=
  JObj (object
    [("type", Some (JStr "conversation_initiation_client_data"));
     ("conversation_config_override", Some (JObj (object
        [("agent", Some (JObj (object
           [("prompt", Some (JObj (object [("prompt", prompt)])));
            ("first_message", first_message)])))])))]).

Definition audioData (sid payload : value) : json :=
  JObj (object
    [("event", Some (JStr "media"));
     ("streamSid", sid);
     ("media", Some (JObj (object [("payload", payload)])))]).

Definition audioMessage (payload : value) : json :=
  JObj (object [("user_audio_chunk", payload)]).

Definition pong (event_id : value) : json :=
  JObj (object [("type", Some (JStr "pong")); ("event_id", event_id)]).

(** ** The listeners of [src/outbound.js] *)

Module Outbound.

Definition default_prompt : string := "You are Gary from the phone store.".
Definition default_first_message : string := "Hey there! How can I help you today?".

(** [elevenLabsWs.on("open", ...)] *)
Definition on_open : M unit :=
  console log "[ElevenLabs] Connected to Conversational AI" ;;
  cp <- read customParameters ;;
  let config :=
    initialConfig
      (or_else (opt_member cp "prompt") (Some (JStr default_prompt)))
      (or_else (opt_member cp "first_message") (Some (JStr default_first_message))) in
  console log "[ElevenLabs] Sending initial config:" ;;
  elevenLabsWs_send config.

(** [elevenLabsWs.on("message", data => ...)] *)
Definition on_message (d : data) : M unit :=
  try_catch
    (message <- JSON_parse d ;;
     type <- prop (Some message) "type" ;;
     if is_str type "audio" then
       sid <- read streamSid ;;
       if truthy sid then
         audio <- prop (Some message) "audio" ;;
         payload <-
           (if truthy (opt_member audio "chunk") then ret (opt_member audio "chunk")
            else audio_event <- prop (Some message) "audio_event" ;;
                 ret (opt_member audio_event "audio_base_64")) ;;
         ws_send (audioData sid payload) ;;
         console log "[Twilio] Sending AI-generated speech to call."
       else
         console log "[ElevenLabs] Received audio but no StreamSid."
     else if is_str type "ping" then
       ping_event <- prop (Some message) "ping_event" ;;
       if truthy (opt_member ping_event "event_id") then
         ping_event <- prop (Some message) "ping_event" ;;
         event_id <- prop ping_event "event_id" ;;
         elevenLabsWs_send (pong event_id)
       else ret tt
     else if is_str type "agent_response" then
       _ <- prop (Some message) "agent_response_event" ;;
       console log "[Twilio] AI Response:"
     else if is_str type "user_transcript" then
       _ <- prop (Some message) "user_transcription_event" ;;
       console log "[Twilio] User said:"
     else
       console log "[ElevenLabs] Unhandled message type:")
    (fun _ => console error "[ElevenLabs] Error processing message:").

(** [elevenLabsWs.on("close", ...)] *)
Definition on_close : M unit := console log "[ElevenLabs] Disconnected".

(** [ws.on("message", message => ...)] *)
Definition on_twilio_message (d : data) : M unit :=
  try_catch
    (msg <- JSON_parse d ;;
     event <- prop (Some msg) "event" ;;
     if is_str event "start" then
       start <- prop (Some msg) "start" ;;
       v <- prop start "streamSid" ;;
       assign (set_streamSid v) ;;
       start <- prop (Some msg) "start" ;;
       v <- prop start "callSid" ;;
       assign (set_callSid v) ;;
       start <- prop (Some msg) "start" ;;
       v <- prop start "customParameters" ;;
       assign (set_customParameters v) ;;
       console log "[Twilio] Stream started - StreamSid: , CallSid:"
     else if is_str event "media" then
       open <- read agent_is_open ;;
       if open then
         media <- prop (Some msg) "media" ;;
         payload <- prop media "payload" ;;
         elevenLabsWs_send (audioMessage payload)
       else ret tt
     else if is_str event "stop" then
       console log "[Twilio] Stream ended" ;;
       w <- read elevenLabsWs ;;
       match w with
       | None => ret tt
       | Some _ => elevenLabsWs_close
       end
     else ret tt)
    (fun _ => console error "[Twilio] Error processing message:").

End Outbound.

(** ** The listeners of [src/unnamed/part_000] *)

Module Part000.

Definition default_prompt : string := "Hello! How can I help?".
Definition default_first_message : string := "Hi there!".

(** [elevenLabsWs.on("open", ...)] *)
Definition on_open : M unit :=
  console log "[ElevenLabs] Connected to Conversational AI" ;;
  cp <- read customParameters ;;
  let config :=
    initialConfig
      (or_else (opt_member cp "prompt") (Some (JStr default_prompt)))
      (or_else (opt_member cp "first_message") (Some (JStr default_first_message))) in
  console log "[ElevenLabs] Sending initial config with prompt:" ;;
  elevenLabsWs_send config.

(** [elevenLabsWs.on("message", data => ...)] *)
Definition on_message (d : data) : M unit :=
  try_catch
    (message <- JSON_parse d ;;
     type <- prop (Some message) "type" ;;
     if is_str type "conversation_initiation_metadata" then
       console log "[ElevenLabs] Received initiation metadata"
     else if is_str type "audio" then
       sid <- read streamSid ;;
       chunk_present <-
         (if truthy sid then
            audio <- prop (Some message) "audio" ;;
            ret (truthy (opt_member audio "chunk"))
          else ret false) ;;
       if chunk_present then
         audio <- prop (Some message) "audio" ;;
         payload <- prop audio "chunk" ;;
         ws_send (audioData sid payload)
       else
         console warn "[ElevenLabs] Received audio but no StreamSid."
     else if is_str type "agent_response" then
       _ <- prop (Some message) "agent_response_event" ;;
       console log "[Twilio] AI Response:"
     else if is_str type "user_transcript" then
       _ <- prop (Some message) "user_transcription_event" ;;
       console log "[User] Spoke:"
     else
       console log "[ElevenLabs] Unhandled message type:")
    (fun _ => console error "[ElevenLabs] Error processing message:").

(** [elevenLabsWs.on("close", ...)] *)
Definition on_close : M unit := console log "[ElevenLabs] Disconnected".

(** [ws.on("message", message => ...)] *)
Definition on_twilio_message (d : data) : M unit :=
  try_catch
    (msg <- JSON_parse d ;;
     event <- prop (Some msg) "event" ;;
     (if is_str event "media" then ret tt
      else console log "[Twilio] Received event:") ;;
     if is_str event "start" then
       start <- prop (Some msg) "start" ;;
       v <- prop start "streamSid" ;;
       assign (set_streamSid v) ;;
       start <- prop (Some msg) "start" ;;
       v <- prop start "callSid" ;;
       assign (set_callSid v) ;;
       start <- prop (Some msg) "start" ;;
       v <- prop start "customParameters" ;;
       assign (set_customParameters v) ;;
       console log "[Twilio] Stream started (StreamSid: , CallSid: )"
     else if is_str event "media" then
       open <- read agent_is_open ;;
       if open then
         media <- prop (Some msg) "media" ;;
         payload <- prop media "payload" ;;
         elevenLabsWs_send (audioMessage payload)
       else ret tt
     else if is_str event "stop" then
       console log "[Twilio] Stream ended" ;;
       open <- read agent_is_open ;;
       if open then elevenLabsWs_close else ret tt
     else ret tt)
    (fun _ => console error "[Twilio] Error processing message:").

End Part000.

(** ** Sessions *)

Inductive implementation : Type := outbound_js | part_000.

Definition on_open (i : implementation) : M unit :=
  match i with outbound_js => Outbound.on_open | part_000 => Part000.on_open end.
Definition on_message (i : implementation) : data -> M unit :=
  match i with outbound_js => Outbound.on_message | part_000 => Part000.on_message end.
Definition on_close (i : implementation) : M unit :=
  match i with outbound_js => Outbound.on_close | part_000 => Part000.on_close end.
Definition on_twilio_message (i : implementation) : data -> M unit :=
  match i with
  | outbound_js => Outbound.on_twilio_message
  | part_000 => Part000.on_twilio_message
  end.
Definition default_prompt (i : implementation) : string :=
  match i with outbound_js => Outbound.default_prompt | part_000 => Part000.default_prompt end.
Definition default_first_message (i : implementation) : string :=
  match i with
  | outbound_js => Outbound.default_first_message
  | part_000 => Part000.default_first_message
  end.

(** What the two sockets and the pending request deliver to a session.
    Transport errors of the agent socket are not in this alphabet;
    [emission] adds them. *)
Inductive event : Type :=
| SignedUrl (ok : bool)                (* getSignedUrl() resolved / rejected *)
| ElevenLabsOpen
| ElevenLabsMessage (d : data)
| ElevenLabsClose
| TwilioMessage (d : data)
| TwilioError
| TwilioClose.

(** The rest of [setupElevenLabs] once [getSignedUrl] settles. *)
Definition setupElevenLabs (ok : bool) : M unit :=
  if ok then assign (set_elevenLabsWs (Some CONNECTING))
  else
    console error "Error getting signed URL:" ;;
    console error "[ElevenLabs] Setup error:".

(** One turn of the event loop.  The agent socket emits [open] only while
    connecting, [message] only while open or closing and [close] once;
    [ws.on("error", console.error)] is the only other listener of the
    telephony socket, so its [close] runs no code of the relay. *)
Definition dispatch (i : implementation) (e : event) : M unit :=
  match e with
  | SignedUrl ok =>
      pending <- read awaiting ;;
      if pending then assign (set_awaiting false) ;; setupElevenLabs ok else ret tt
  | ElevenLabsOpen =>
      w <- read elevenLabsWs ;;
      match w with
      | Some CONNECTING => assign (set_elevenLabsWs (Some OPEN)) ;; on_open i
      | _ => ret tt
      end
  | ElevenLabsMessage d =>
      w <- read elevenLabsWs ;;
      match w with
      | Some OPEN | Some CLOSING => on_message i d
      | _ => ret tt
      end
  | ElevenLabsClose =>
      w <- read elevenLabsWs ;;
      match w with
      | None | Some CLOSED => ret tt
      | Some _ => assign (set_elevenLabsWs (Some CLOSED)) ;; on_close i
      end
  | TwilioMessage d => on_twilio_message i d
  | TwilioError => console error "WebSocket error"
  | TwilioClose => ret tt
  end.

Definition step (i : implementation) (s : session) (e : event) : session * list action :=
  match dispatch i e s with
  | (_, s', out) => (s', out)
  end.

Fixpoint run (i : implementation) (s : session) (es : list event) : session * list action :=
  match es with
  | [] => (s, [])
  | e :: rest =>
      match step i s e with
      | (s1, o1) =>
          match run i s1 rest with
          | (s2, o2) => (s2, o1 ++ o2)
          end
      end
  end.

Definition final (i : implementation) (s : session) (es : list event) : session :=
  fst (run i s es).
Definition trace (i : implementation) (s : session) (es : list event) : list action :=
  snd (run i s es).

(** The frames sent to the agent, the frames sent to the telephony side,
    the number of [close()] calls, and the trace without console output. *)
Definition agent_frames (o : list action) : list json :=
  flat_map (fun a => match a with AgentSend f => [f] | _ => [] end) o.
Definition twilio_frames (o : list action) : list json :=
  flat_map (fun a => match a with TwilioSend f => [f] | _ => [] end) o.
Definition closes (o : list action) : nat :=
  length (filter (fun a => match a with AgentClose => true | _ => false end) o).
Definition wire (o : list action) : list action :=
  filter (fun a => match a with Console _ _ => false | _ => true end) o.

(** Messages used in the examples. *)
Definition start_message (sid cid : string) (cp : json) : json :=
  JObj [("event", JStr "start");
        ("start", JObj [("streamSid", JStr sid); ("callSid", JStr cid);
                        ("customParameters", cp)])].
Definition media_message (payload : string) : json :=
  JObj [("event", JStr "media"); ("media", JObj [("payload", JStr payload)])].
Definition stop_message : json := JObj [("event", JStr "stop")].
Definition ping_message (id : Z) : json :=
  JObj [("type", JStr "ping"); ("ping_event", JObj [("event_id", JNum id)])].
Definition audio_chunk_message (chunk : string) : json :=
  JObj [("type", JStr "audio"); ("audio", JObj [("chunk", JStr chunk)])].
Definition audio_event_message (audio : string) : json :=
  JObj [("type", JStr "audio"); ("audio_event", JObj [("audio_base_64", JStr audio)])].
Definition parameters (prompt first_message : string) : json :=
  JObj [("prompt", JStr prompt); ("first_message", JStr first_message)].

(** A telephony message whose [event] is ["start"]. *)
Definition is_start_event (e : event) : bool :=
  match e with
  | TwilioMessage (Text m) => is_str (member m "event") "start"
  | _ => false
  end.

(** The turns on which the two implementations make the same calls on the
    two sockets: the agent socket opens with both parameters supplied and
    truthy; an agent [audio] message finds [streamSid] falsy or carries a
    truthy [audio.chunk]; an agent [ping] carries no truthy event id; a
    telephony [stop] finds the agent socket absent or open. *)
Definition agree (s : session) (e : event) : bool :=
  match e with
  | ElevenLabsOpen =>
      match elevenLabsWs s with
      | Some CONNECTING =>
          truthy (opt_member (customParameters s) "prompt")
          && truthy (opt_member (customParameters s) "first_message")
      | _ => true
      end
  | ElevenLabsMessage (Text m) =>
      match elevenLabsWs s with
      | Some OPEN | Some CLOSING =>
          if is_str (member m "type") "audio" then
            negb (truthy (streamSid s)) || truthy (opt_member (member m "audio") "chunk")
          else if is_str (member m "type") "ping" then
            negb (truthy (opt_member (member m "ping_event") "event_id"))
          else true
      | _ => true
      end
  | TwilioMessage (Text m) =>
      if is_str (member m "event") "stop" then
        match elevenLabsWs s with
        | None | Some OPEN => true
        | _ => false
        end
      else true
  | _ => true
  end.

Fixpoint agree_along (s : session) (es : list event) : bool :=
  match es with
  | [] => true
  | e :: rest => agree s e && agree_along (fst (step outbound_js s e)) rest
  end.

(** [elevenLabsWs] is assigned by the continuation of [setupElevenLabs]
    only: while that is suspended the variable is [null]. *)
Definition consistent (s : session) : bool :=
  negb (awaiting s) || match elevenLabsWs s with None => true | Some _ => false end.

(** The agent socket has been closed or is closing. *)
Definition spent (s : session) : bool :=
  match elevenLabsWs s with
  | Some CLOSING | Some CLOSED => true
  | _ => false
  end.

(** ** Further vocabulary for sessions *)

(** [e] is a [start] message whose [start.streamSid] is [sid]. *)
Definition supplies_streamSid (e : event) (sid : json) : Prop :=
  exists m st,
    e = TwilioMessage (Text m)
    /\ member m "event" = Some (JStr "start")
    /\ member m "start" = Some st
    /\ member st "streamSid" = Some sid.

(** How far the agent socket has come: no socket, then the four ready
    states in the order of [WebSocket.CONNECTING] .. [WebSocket.CLOSED]. *)
Definition rank (w : option readyState) : nat :=
  match w with
  | None => 0
  | Some CONNECTING => 1
  | Some OPEN => 2
  | Some CLOSING => 3
  | Some CLOSED => 4
  end.

(** The frames of a trace that are initialization frames. *)
Definition is_initialization (f : json) : bool :=
  is_str (member f "type") "conversation_initiation_client_data".
Definition initializations (o : list action) : nat :=
  length (filter is_initialization (agent_frames o)).

(** Two sessions that differ at most in [callSid]. *)
Definition same_but_callSid (s1 s2 : session) : Prop :=
  streamSid s1 = streamSid s2
  /\ elevenLabsWs s1 = elevenLabsWs s2
  /\ customParameters s1 = customParameters s2
  /\ awaiting s1 = awaiting s2.

(** A telephony [media] message carrying payload [p], and an agent [audio]
    message carrying the truthy chunk [c]. *)
Definition caller_audio (e : event) (p : json) : Prop :=
  exists m media,
    e = TwilioMessage (Text m)
    /\ member m "event" = Some (JStr "media")
    /\ member m "media" = Some media
    /\ member media "payload" = Some p.
Definition agent_audio (e : event) (c : json) : Prop :=
  exists m audio,
    e = ElevenLabsMessage (Text m)
    /\ member m "type" = Some (JStr "audio")
    /\ member m "audio" = Some audio
    /\ member audio "chunk" = Some c
    /\ truthy (Some c) = true.

(** A stretch of audio in both directions, with the socket calls that
    relaying it one for one would make for stream [sid]. *)
Inductive relayed (sid : json) : list event -> list action -> Prop :=
| relayed_nil : relayed sid [] []
| relayed_caller e p es o :
    caller_audio e p -> relayed sid es o ->
    relayed sid (e :: es) (AgentSend (JObj [("user_audio_chunk", p)]) :: o)
| relayed_agent e c es o :
    agent_audio e c -> relayed sid es o ->
    relayed sid (e :: es)
      (TwilioSend (JObj [("event", JStr "media"); ("streamSid", sid);
                         ("media", JObj [("payload", c)])]) :: o).

(** ** The callback URL of [/outbound-call] *)

(** The characters [encodeURIComponent] leaves as they are: letters,
    digits and [- _ . ! ~ * ' ( )]. *)
Definition unreserved (c : ascii) : bool :=
  let n := nat_of_ascii c in
  (((48 <=? n) && (n <=? 57)) || ((65 <=? n) && (n <=? 90)) || ((97 <=? n) && (n <=? 122))
   || existsb (Nat.eqb n) [45; 95; 46; 33; 126; 42; 39; 40; 41])%nat.

Definition hex_digit (n : nat) : ascii :=
  nth n (list_ascii_of_string "0123456789ABCDEF") "0"%char.

(** [encodeURIComponent] on a string given by its UTF-8 bytes: every byte
    that is not unreserved becomes [%XX], in upper-case hexadecimal. *)
Fixpoint encodeURIComponent (s : string) : string :=
  match s with
  | EmptyString => EmptyString
  | String c rest =>
      if unreserved c then String c (encodeURIComponent rest)
      else
        String "%" (String (hex_digit (nat_of_ascii c / 16))
                      (String (hex_digit (nat_of_ascii c mod 16))
                         (encodeURIComponent rest)))
  end.

(** The [url] option of [twilioClient.calls.create]: [host] is the text of
    [request.headers.host], [prompt] and [first_message] are the texts of
    the two fields of the body, that is, what the string conversion of
    JavaScript makes of them before [encodeURIComponent] encodes them (a
    missing field has the text [undefined]). *)
Definition callback_url (host prompt first_message : string) : string :=
  ("https://" ++ host ++ "/outbound-call-twiml?prompt=" ++ encodeURIComponent prompt
     ++ "&first_message=" ++ encodeURIComponent first_message)%string.

(** Reading [%XX] escapes back: the value of a hexadecimal digit, and the
    string an escaped string stands for ([None] on a malformed escape). *)
Definition hex_value (c : ascii) : option nat :=
  let n := nat_of_ascii c in
  (if (48 <=? n) && (n <=? 57) then Some (n - 48)
   else if (65 <=? n) && (n <=? 70) then Some (n - 55)
   else if (97 <=? n) && (n <=? 102) then Some (n - 87)
   else None)%nat.

Fixpoint percent_decode (s : string) : option string :=
  match s with
  | EmptyString => Some EmptyString
  | String c rest =>
      if (c =? "%")%char then
        match rest with
        | String a (String b rest') =>
            match hex_value a, hex_value b, percent_decode rest' with
            | Some x, Some y, Some r => Some (String (ascii_of_nat (16 * x + y)) r)
            | _, _, _ => None
            end
        | _ => None
        end
      else option_map (String c) (percent_decode rest)
  end.

(** ** Acquiring the signed URL *)

(** What [fetch] settles with: a network failure, or a response with its
    [ok] flag, its [statusText] and its body. *)
Inductive fetched : Type :=
| NetworkError
| Response (ok : bool) (statusText : string) (body : data).

(** What [getSignedUrl] rejects with. *)
Inductive rejection : Type :=
| FetchFailed                          (* fetch rejected *)
| FailedStatus (statusText : string)   (* new Error(`Failed to get signed URL: ...`) *)
| Raised (e : exn).                    (* response.json() or data.signed_url threw *)

(** The [try] block of [getSignedUrl]. *)
Definition signed_url_of (r : fetched) : value + rejection :=
  match r with
  | NetworkError => inr FetchFailed
  | Response false statusText _ => inr (FailedStatus statusText)
  | Response true _ (NotJSON _) => inr (Raised SyntaxError)
  | Response true _ (Text JNull) => inr (Raised TypeError)
  | Response true _ (Text j) => inl (member j "signed_url")
  end.

(** [getSignedUrl]: what the [try] block gives, every rejection logged
    and thrown again. *)
Definition getSignedUrl (r : fetched) : (value + rejection) * list action :=
  match signed_url_of r with
  | inl url => (inl url, [])
  | inr e => (inr e, [Console error "Error getting signed URL:"])
  end.

(** [setupElevenLabs] from the response of the provider.  [accepts] tells
    whether [new WebSocket(url)] constructs a socket or throws. *)
Definition setupElevenLabs_from (accepts : value -> bool) (r : fetched) : M unit :=
  fun s =>
    match getSignedUrl r with
    | (inl url, o) =>
        if accepts url then (Returns tt, set_elevenLabsWs (Some CONNECTING) s, o)
        else (Returns tt, s, o ++ [Console error "[ElevenLabs] Setup error:"])
    | (inr _, o) => (Returns tt, s, o ++ [Console error "[ElevenLabs] Setup error:"])
    end.

(** The response is a success carrying JSON other than [null] whose
    [signed_url] the socket constructor accepts. *)
Definition usable (accepts : value -> bool) (r : fetched) : bool :=
  match r with
  | Response true _ (Text j) =>
      match j with
      | JNull => false
      | _ => accepts (member j "signed_url")
      end
  | _ => false
  end.

(** ** The [/outbound-call] route *)




(** ** Closing the agent connection *)




(** ** The error event of the agent socket *)

(** What the sockets emit: the events of the session model, and the
    [error] event of the agent socket. *)
Inductive emission : Type :=
| Delivered (e : event)
| ElevenLabsError.

(** [elevenLabsWs.on("error", ...)]: [src/unnamed/part_000] registers a
    listener that logs; [src/outbound.js] registers none. *)
Definition on_error (i : implementation) : option (M unit) :=
  match i with
  | outbound_js => None
  | part_000 => Some (console error "[ElevenLabs] WebSocket error:")
  end.

(** How a turn ends: every listener returned, or an exception left the
    event loop uncaught (Node then ends the process). *)
Inductive ending : Type := Handled | Uncaught.

Definition ending_of {A} (r : outcome A) : ending :=
  match r with
  | Returns _ => Handled
  | Throws _ => Uncaught
  end.

(** One turn on the full alphabet.  An [error] is emitted by a socket that
    exists, which is closing by then; where no listener is registered for
    it the emitter throws. *)
Definition emit_event (i : implementation) (x : emission) (s : session)
  : ending * session * list action :=
  match x with
  | Delivered e =>
      match dispatch i e s with
      | (r, s', out) => (ending_of r, s', out)
      end
  | ElevenLabsError =>
      match elevenLabsWs s with
      | None => (Handled, s, [])
      | Some r =>
          match on_error i with
          | Some listener =>
              match listener (set_elevenLabsWs (Some (closing r)) s) with
              | (r', s', out) => (ending_of r', s', out)
              end
          | None => (Uncaught, set_elevenLabsWs (Some (closing r)) s, [])
          end
      end
  end.

(** ** Runs *)

Lemma run_app (i : implementation) (es1 es2 : list event) (s : session) :
  run i s (es1 ++ es2) =
    (final i (final i s es1) es2, trace i s es1 ++ trace i (final i s es1) es2).
Proof.
  revert s. unfold final, trace.
  induction es1 as [|e es1 IH]; intros s; simpl.
  - now destruct (run i s es2).
  - destruct (step i s e) as [s1 o1]. rewrite IH.
    destruct (run i s1 es1) as [s2 o2]; simpl.
    now rewrite app_assoc.
Qed.

Lemma final_app (i : implementation) (es1 es2 : list event) (s : session) :
  final i s (es1 ++ es2) = final i (final i s es1) es2.
Proof. unfold final at 1. now rewrite run_app. Qed.

Lemma trace_app (i : implementation) (es1 es2 : list event) (s : session) :
  trace i s (es1 ++ es2) = trace i s es1 ++ trace i (final i s es1) es2.
Proof. unfold trace at 1. now rewrite run_app. Qed.

Lemma run_cons (i : implementation) (e : event) (es : list event) (s : session) :
  run i s (e :: es) =
    (final i (fst (step i s e)) es, snd (step i s e) ++ trace i (fst (step i s e)) es).
Proof.
  unfold final, trace. simpl. destruct (step i s e) as [s1 o1]; simpl.
  now destruct (run i s1 es).
Qed.

Lemma wire_app (o1 o2 : list action) : wire (o1 ++ o2) = wire o1 ++ wire o2.
Proof. apply filter_app. Qed.

Lemma closes_app (o1 o2 : list action) : closes (o1 ++ o2) = closes o1 + closes o2.
Proof. unfold closes. now rewrite filter_app, length_app. Qed.

Lemma agent_frames_app (o1 o2 : list action) :
  agent_frames (o1 ++ o2) = agent_frames o1 ++ agent_frames o2.
Proof. apply flat_map_app. Qed.

(** Unfolding the listeners down to the monad. *)
Ltac unfold_listeners :=
  unfold step, dispatch, setupElevenLabs,
    on_open, on_message, on_close, on_twilio_message,
    Outbound.on_open, Outbound.on_message, Outbound.on_close, Outbound.on_twilio_message,
    Part000.on_open, Part000.on_message, Part000.on_close, Part000.on_twilio_message,
    elevenLabsWs_send, elevenLabsWs_close, ws_send, console, JSON_parse, prop,
    try_catch, bind, ret, throw, read, assign, emit in *.

(** Case analysis on whatever a listener branches on, innermost first. *)
Ltac branch :=
  repeat (match goal with
    | |- context [match ?x with _ => _ end] =>
        lazymatch x with
        | context [match _ with _ => _ end] => fail
        | _ => destruct x eqn:?
        end
    end; cbn in *; try discriminate).

Ltac tidy :=
  repeat match goal with
    | H : Some _ = Some _ |- _ => injection H as H
    | H : JObj _ = JObj _ |- _ => injection H as H
    | H : JStr _ = JStr _ |- _ => injection H as H
    end; subst.

(** No exception escapes a turn of the event loop on an event of the
    session model. *)
Lemma dispatch_returns (i : implementation) (e : event) (s : session) :
  fst (fst (dispatch i e s)) = Returns tt.
Proof.
  destruct i, e; unfold_listeners; cbn; branch; reflexivity.
Qed.

(** ** Malformed events *)

(** C9.  An event whose data is not JSON, on the telephony or on the agent
    stream, is caught and logged by the listener: the listener returns, the
    only call it makes is one [console.error] (so neither socket is closed
    and nothing is sent), the session is unchanged, and the events that
    follow are processed as if the malformed one had not arrived. *)
Theorem malformed_event_logged_and_skipped
    (i : implementation) (s : session) (t : string) (rest : list event) :
  on_twilio_message i (NotJSON t) s =
    (Returns tt, s, [Console error "[Twilio] Error processing message:"])
  /\ on_message i (NotJSON t) s =
    (Returns tt, s, [Console error "[ElevenLabs] Error processing message:"])
  /\ run i s (TwilioMessage (NotJSON t) :: rest) =
    (final i s rest,
     Console error "[Twilio] Error processing message:" :: trace i s rest)
  /\ final i s (ElevenLabsMessage (NotJSON t) :: rest) = final i s rest
  /\ wire (trace i s (ElevenLabsMessage (NotJSON t) :: rest)) = wire (trace i s rest).
Proof.
  assert (Ht : on_twilio_message i (NotJSON t) s =
    (Returns tt, s, [Console error "[Twilio] Error processing message:"]))
    by (destruct i; reflexivity).
  assert (Ha : on_message i (NotJSON t) s =
    (Returns tt, s, [Console error "[ElevenLabs] Error processing message:"]))
    by (destruct i; reflexivity).
  assert (Hs : fst (step i s (ElevenLabsMessage (NotJSON t))) = s
               /\ wire (snd (step i s (ElevenLabsMessage (NotJSON t)))) = []).
  { unfold step, dispatch, bind, read.
    destruct (elevenLabsWs s) as [[| | |]|]; cbn; try rewrite Ha; cbn; auto. }
  destruct Hs as [Hs1 Hs2].
  repeat split; trivial.
  - rewrite run_cons. unfold step, dispatch. rewrite Ht. reflexivity.
  - unfold final at 1. rewrite run_cons. cbn. now rewrite Hs1.
  - unfold trace at 1. rewrite run_cons. cbn. rewrite wire_app, Hs1, Hs2. reflexivity.
Qed.

(** ** The end of the telephony stream *)

(** C3, as the spec has it, fails: after the agent socket has opened, a
    [close] (or an [error]) of the telephony socket leaves the agent
    socket open, and [close()] is not called on it. *)
Lemma telephony_end_leaves_agent_open :
  (elevenLabsWs (final outbound_js initial [SignedUrl true; ElevenLabsOpen; TwilioClose])
     = Some OPEN
   /\ closes (trace outbound_js initial [SignedUrl true; ElevenLabsOpen; TwilioClose]) = 0)
  /\ (elevenLabsWs (final part_000 initial [SignedUrl true; ElevenLabsOpen; TwilioError])
     = Some OPEN
   /\ closes (trace part_000 initial [SignedUrl true; ElevenLabsOpen; TwilioError]) = 0).
Proof. repeat split; reflexivity. Qed.

(** C3, amended.  The relay has no [close] listener on the telephony
    socket and its [error] listener is [console.error]: a [close] runs no
    code, an [error] is logged, both leave the session as it is, and the
    only event on which the relay calls [close()] on the agent socket is a
    telephony [stop] message. *)
Theorem agent_closed_on_stop_only (i : implementation) (s : session) :
  step i s TwilioClose = (s, [])
  /\ step i s TwilioError = (s, [Console error "WebSocket error"])
  /\ forall e : event,
       In AgentClose (snd (step i s e)) ->
       exists m, e = TwilioMessage (Text m) /\ is_str (member m "event") "stop" = true.
Proof.
  repeat split.
  intros e. destruct i, e as [ok| |d| |d| |]; try destruct d as [t|m]; try destruct m;
    unfold_listeners; cbn; branch;
    try (intros H; repeat (destruct H as [H|H]; try discriminate H); try contradiction; fail).
  all: intros _; eexists; split; [reflexivity|]; cbn; assumption.
Qed.

Lemma agent_closed_on_stop_only_witness :
  exists m, TwilioMessage (Text stop_message) = TwilioMessage (Text m)
            /\ is_str (member m "event") "stop" = true.
Proof.
  apply (agent_closed_on_stop_only outbound_js
           {| streamSid := null; callSid := null; elevenLabsWs := Some OPEN;
              customParameters := null; awaiting := false |}).
  simpl. right. left. reflexivity.
Defined.

(** ** Caller audio *)

Lemma is_str_true (v : value) (t : string) : is_str v t = true -> v = Some (JStr t).
Proof.
  destruct v as [[]|]; cbn; try discriminate.
  intros H. apply String.eqb_eq in H. now subst.
Qed.

Lemma media_while_not_open (i : implementation) (s : session) (m : json) :
  is_str (member m "event") "media" = true ->
  agent_is_open s = false ->
  on_twilio_message i (Text m) s = (Returns tt, s, []).
Proof.
  intros Hm Ho. apply is_str_true in Hm.
  destruct m; try discriminate Hm. cbn in Hm.
  destruct i; unfold_listeners; unfold agent_is_open in *; cbn; rewrite Hm; cbn;
    branch; congruence.
Qed.

Lemma media_while_open (i : implementation) (s : session) (m media p : json) :
  member m "event" = Some (JStr "media") ->
  member m "media" = Some media ->
  member media "payload" = Some p ->
  agent_is_open s = true ->
  on_twilio_message i (Text m) s = (Returns tt, s, [AgentSend (JObj [("user_audio_chunk", p)])]).
Proof.
  intros He Hm Hp Ho.
  destruct m; try discriminate He. destruct media; try discriminate Hp.
  cbn in He, Hm, Hp.
  destruct i; unfold_listeners; unfold agent_is_open in *; cbn; rewrite He; cbn;
    branch; cbn in *; try congruence; tidy; rewrite Hp; reflexivity.
Qed.

(** A turn other than the opening of the agent socket never opens it, and
    sends no caller audio while it is not open. *)
Lemma step_not_open (i : implementation) (s : session) (e : event) :
  agent_is_open s = false ->
  e <> ElevenLabsOpen ->
  agent_is_open (fst (step i s e)) = false
  /\ forall p, ~ In (AgentSend (audioMessage p)) (snd (step i s e)).
Proof.
  intros Ho He.
  destruct i, e as [ok| |d| |d| |]; try congruence;
    try destruct d as [t|m]; try destruct m;
    unfold_listeners; unfold agent_is_open in *; cbn; branch; cbn in *; try congruence;
    try match goal with H : closing ?r = OPEN |- _ => destruct r; discriminate H end;
    (split; [assumption || reflexivity || congruence
            | intros [p|] H; cbn in H;
              repeat (destruct H as [H|H]; try discriminate H); try contradiction]).
Qed.

Lemma no_audio_without_open (i : implementation) (es : list event) (s : session) :
  agent_is_open s = false ->
  ~ In ElevenLabsOpen es ->
  forall p, ~ In (AgentSend (audioMessage p)) (trace i s es).
Proof.
  revert s. induction es as [|e es IH]; intros s Ho Hn p; [intros []|].
  unfold trace. rewrite run_cons. cbn. rewrite in_app_iff.
  assert (He : e <> ElevenLabsOpen) by (intros ->; apply Hn; now left).
  destruct (step_not_open i s e Ho He) as [Ho' Hs].
  intros [H|H]; [exact (Hs p H)|].
  apply (IH (fst (step i s e)) Ho' (fun H0 => Hn (or_intror H0)) p H).
Qed.

(** C7.  A telephony [media] event that carries a payload: while the agent
    socket is open the listener makes exactly one call, sending
    [{user_audio_chunk: payload}] with the payload as received; otherwise it
    makes no call at all (nothing sent, nothing logged, nothing stored: the
    session is unchanged either way).  And in a session in which the agent
    socket has not opened, no caller audio is ever sent to the agent. *)
Theorem media_forwarded_iff_agent_open
    (i : implementation) (s : session) (m media p : json) :
  member m "event" = Some (JStr "media") ->
  member m "media" = Some media ->
  member media "payload" = Some p ->
  (agent_is_open s = true ->
     on_twilio_message i (Text m) s =
       (Returns tt, s, [AgentSend (JObj [("user_audio_chunk", p)])]))
  /\ (agent_is_open s = false ->
     on_twilio_message i (Text m) s = (Returns tt, s, []))
  /\ (forall es q, ~ In ElevenLabsOpen es ->
     ~ In (AgentSend (audioMessage q)) (trace i initial es)).
Proof.
  intros He Hm Hp. repeat split.
  - now apply media_while_open with media.
  - apply media_while_not_open. destruct m; try discriminate He.
    cbn in *. now rewrite He.
  - intros es q Hn. now apply no_audio_without_open.
Qed.

Lemma media_forwarded_iff_agent_open_witness :
  on_twilio_message outbound_js (Text (media_message "AAAA"))
    (final outbound_js initial [SignedUrl true; ElevenLabsOpen]) =
  (Returns tt, final outbound_js initial [SignedUrl true; ElevenLabsOpen],
   [AgentSend (JObj [("user_audio_chunk", JStr "AAAA")])]).
Proof.
  apply (media_forwarded_iff_agent_open outbound_js
           (final outbound_js initial [SignedUrl true; ElevenLabsOpen])
           (media_message "AAAA") (JObj [("payload", JStr "AAAA")]) (JStr "AAAA"));
    reflexivity.
Defined.

(** C1, as the spec has it, fails: with the agent socket open and no
    [start] received yet, the payload of a [media] event is sent to the
    agent. *)
Lemma media_before_start_is_forwarded :
  (forall m, In (TwilioMessage (Text m))
               [SignedUrl true; ElevenLabsOpen; TwilioMessage (Text (media_message "AAAA"))] ->
             is_str (member m "event") "start" = false)
  /\ In (AgentSend (JObj [("user_audio_chunk", JStr "AAAA")]))
        (trace outbound_js initial
           [SignedUrl true; ElevenLabsOpen; TwilioMessage (Text (media_message "AAAA"))])
  /\ In (AgentSend (JObj [("user_audio_chunk", JStr "AAAA")]))
        (trace part_000 initial
           [SignedUrl true; ElevenLabsOpen; TwilioMessage (Text (media_message "AAAA"))]).
Proof.
  split; [|split].
  - intros m [H|[H|[H|[]]]]; try discriminate H. now injection H as <-.
  - cbn. auto 10.
  - cbn. auto 10.
Qed.

(** C1, amended.  A [media] event that arrives while the agent socket is
    not open, before [start] or after it, is dropped and not queued: the
    whole run, final session and every call made, is the run without that
    event. *)
Theorem media_dropped_while_agent_not_open
    (i : implementation) (s : session) (pre post : list event) (m : json) :
  is_str (member m "event") "media" = true ->
  agent_is_open (final i s pre) = false ->
  run i s (pre ++ TwilioMessage (Text m) :: post) = run i s (pre ++ post).
Proof.
  intros Hm Ho. rewrite !run_app. unfold final at 1, trace at 2.
  rewrite run_cons. unfold step, dispatch.
  rewrite (media_while_not_open i _ m Hm Ho). reflexivity.
Qed.

Lemma media_dropped_while_agent_not_open_witness :
  run part_000 initial
    ([SignedUrl true] ++ TwilioMessage (Text (media_message "AAAA")) ::
       [TwilioMessage (Text (start_message "S1" "C1" (parameters "X" "Y"))); ElevenLabsOpen])
  = run part_000 initial
      ([SignedUrl true] ++
       [TwilioMessage (Text (start_message "S1" "C1" (parameters "X" "Y"))); ElevenLabsOpen]).
Proof.
  apply (media_dropped_while_agent_not_open part_000 initial [SignedUrl true]);
    reflexivity.
Defined.

(** ** The initialization frame *)

Lemma open_sends_initialConfig (i : implementation) (s : session) :
  elevenLabsWs s = Some CONNECTING ->
  fst (step i s ElevenLabsOpen) = set_elevenLabsWs (Some OPEN) s
  /\ agent_frames (snd (step i s ElevenLabsOpen)) =
       [initialConfig
          (or_else (opt_member (customParameters s) "prompt")
                   (Some (JStr (default_prompt i))))
          (or_else (opt_member (customParameters s) "first_message")
                   (Some (JStr (default_first_message i))))].
Proof.
  intros Hw. destruct i; unfold_listeners; cbn; rewrite Hw; cbn; split; reflexivity.
Qed.

Lemma step_keeps_customParameters (i : implementation) (s : session) (e : event) :
  is_start_event e = false ->
  customParameters (fst (step i s e)) = customParameters s.
Proof.
  intros He.
  destruct i, e as [ok| |d| |d| |]; try destruct d as [t|m]; try destruct m;
    cbn in He; unfold_listeners; cbn; try rewrite He; branch; reflexivity.
Qed.

Lemma start_sets_customParameters (i : implementation) (s : session) (m st : json) :
  member m "event" = Some (JStr "start") ->
  member m "start" = Some st ->
  st <> JNull ->
  customParameters (fst (step i s (TwilioMessage (Text m)))) = member st "customParameters"
  /\ elevenLabsWs (fst (step i s (TwilioMessage (Text m)))) = elevenLabsWs s.
Proof.
  intros He Hs Hn. destruct m; try discriminate He. cbn in He, Hs.
  destruct i; unfold_listeners; cbn; rewrite He; cbn; rewrite Hs;
    destruct st; try congruence; cbn; split; reflexivity.
Qed.


Lemma or_else_default (v : value) (d : string) :
  exists j, or_else v (Some (JStr d)) = Some j
            /\ (truthy v = false -> j = JStr d)
            /\ (truthy v = true -> Some j = v).
Proof.
  unfold or_else. destruct (truthy v) eqn:Ht.
  - destruct v as [j|]; [|discriminate Ht]. exists j. repeat split; congruence.
  - exists (JStr d). repeat split; congruence.
Qed.



Lemma run_keeps_customParameters (i : implementation) (es : list event) (s : session) :
  forallb (fun e => negb (is_start_event e)) es = true ->
  customParameters (final i s es) = customParameters s.
Proof.
  revert s. induction es as [|e es IH]; intros s H; [reflexivity|].
  cbn in H. apply andb_prop in H. destruct H as [He Hes].
  unfold final. rewrite run_cons. cbn [fst]. fold (final i (fst (step i s e)) es).
  rewrite IH by assumption. apply step_keeps_customParameters.
  now destruct (is_start_event e).
Qed.

(** C10.  After a [start] message that supplies [customParameters], and
    whatever else arrives before the agent socket opens (no other [start]),
    the initialization frame sent on open carries, in its [prompt] field
    and in its [first_message] field separately, the fallback string of the
    implementation when the supplied value is falsy (the empty string, or
    absent), and the supplied value when it is truthy. *)
Theorem falsy_parameter_uses_fallback
    (i : implementation) (s : session) (mid : list event) (m st cp : json) :
  member m "event" = Some (JStr "start") ->
  member m "start" = Some st ->
  member st "customParameters" = Some cp ->
  forallb (fun e => negb (is_start_event e)) mid = true ->
  elevenLabsWs (final i s (TwilioMessage (Text m) :: mid)) = Some CONNECTING ->
  exists prompt first_message : json,
    agent_frames (snd (step i (final i s (TwilioMessage (Text m) :: mid)) ElevenLabsOpen))
      = [JObj [("type", JStr "conversation_initiation_client_data");
               ("conversation_config_override",
                JObj [("agent",
                       JObj [("prompt", JObj [("prompt", prompt)]);
                             ("first_message", first_message)])])]]
    /\ (truthy (member cp "prompt") = false ->
        prompt = JStr (match i with
                       | outbound_js => "You are Gary from the phone store."
                       | part_000 => "Hello! How can I help?"
                       end))
    /\ (truthy (member cp "first_message") = false ->
        first_message = JStr (match i with
                              | outbound_js => "Hey there! How can I help you today?"
                              | part_000 => "Hi there!"
                              end))
    /\ (truthy (member cp "prompt") = true -> Some prompt = member cp "prompt")
    /\ (truthy (member cp "first_message") = true ->
        Some first_message = member cp "first_message").
Proof.
  intros He Hs Hc Hmid Hw.
  assert (Hn : st <> JNull) by (intros ->; discriminate Hc).
  destruct (open_sends_initialConfig i _ Hw) as [_ Hframe].
  assert (Hcp : customParameters (final i s (TwilioMessage (Text m) :: mid)) = Some cp).
  { unfold final. rewrite run_cons. cbn [fst].
    fold (final i (fst (step i s (TwilioMessage (Text m)))) mid).
    rewrite run_keeps_customParameters by assumption.
    destruct (start_sets_customParameters i s m st He Hs Hn) as [H _]. congruence. }
  rewrite Hcp in Hframe. cbn [opt_member] in Hframe.
  destruct (or_else_default (member cp "prompt") (default_prompt i)) as [p [Hp [Hp0 Hp1]]].
  destruct (or_else_default (member cp "first_message") (default_first_message i))
    as [f [Hf [Hf0 Hf1]]].
  exists p, f. rewrite Hframe, Hp, Hf.
  split; [reflexivity|].
  split; [intros H; rewrite (Hp0 H); now destruct i|].
  split; [intros H; rewrite (Hf0 H); now destruct i|].
  auto.
Qed.

Lemma falsy_parameter_uses_fallback_witness :
  exists prompt first_message : json,
    agent_frames
      (snd (step part_000
              (final part_000 (final part_000 initial [SignedUrl true])
                 (TwilioMessage (Text (start_message "S1" "C1" (parameters "" "Y")))
                    :: [TwilioMessage (Text (media_message "AAAA"))]))
              ElevenLabsOpen))
    = [JObj [("type", JStr "conversation_initiation_client_data");
             ("conversation_config_override",
              JObj [("agent",
                     JObj [("prompt", JObj [("prompt", prompt)]);
                           ("first_message", first_message)])])]]
    /\ prompt = JStr "Hello! How can I help?"
    /\ first_message = JStr "Y".
Proof.
  destruct (falsy_parameter_uses_fallback part_000 (final part_000 initial [SignedUrl true])
              [TwilioMessage (Text (media_message "AAAA"))]
              (start_message "S1" "C1" (parameters "" "Y"))
              (JObj [("streamSid", JStr "S1"); ("callSid", JStr "C1");
                     ("customParameters", parameters "" "Y")])
              (parameters "" "Y"))
    as [p [f [H [Hp [_ [_ Hf]]]]]]; try reflexivity.
  exists p, f. split; [exact H|]. split.
  - apply Hp. reflexivity.
  - assert (Hf' : Some f = Some (JStr "Y")) by (apply Hf; reflexivity).
    now injection Hf'.
Defined.

(** ** Keep-alive *)

(** X11.  In [src/outbound.js] a [ping] with a truthy event id is answered at
    once: the listener makes exactly one call, sending
    [{type: "pong", event_id}] with that id, so the [pong] precedes whatever
    later events send to the agent. *)
Lemma outbound_answers_ping (s : session) (m pe id : json) (rest : list event) :
  member m "type" = Some (JStr "ping") ->
  member m "ping_event" = Some pe ->
  member pe "event_id" = Some id ->
  truthy (Some id) = true ->
  elevenLabsWs s = Some OPEN ->
  Outbound.on_message (Text m) s
    = (Returns tt, s, [AgentSend (JObj [("type", JStr "pong"); ("event_id", id)])])
  /\ agent_frames (trace outbound_js s (ElevenLabsMessage (Text m) :: rest)) =
       JObj [("type", JStr "pong"); ("event_id", id)]
         :: agent_frames (trace outbound_js s rest).
Proof.
  intros Ht Hp Hi Hid Hw.
  assert (H : Outbound.on_message (Text m) s
              = (Returns tt, s, [AgentSend (JObj [("type", JStr "pong"); ("event_id", id)])])).
  { destruct m; try discriminate Ht. destruct pe; try discriminate Hi. cbn in Ht, Hp, Hi.
    cbn in Hid. unfold_listeners.
    repeat (cbn; first [rewrite Ht | rewrite Hp | rewrite Hi | rewrite Hid | rewrite Hw]).
    reflexivity. }
  split; [exact H|].
  unfold trace. rewrite run_cons. unfold step, dispatch, bind, read. rewrite Hw.
  cbn [on_message]. rewrite H. reflexivity.
Qed.

(** C2 fails on [src/unnamed/part_000]: its dispatch has no [ping] case, so
    a [ping] carrying event id 42, received on the open agent socket, is
    logged as unhandled and no [pong] is sent; [src/outbound.js] answers the
    same message with [{type: "pong", event_id: 42}]. *)
Theorem part_000_sends_no_pong :
  step part_000 (final part_000 initial [SignedUrl true; ElevenLabsOpen])
       (ElevenLabsMessage (Text (ping_message 42)))
  = (final part_000 initial [SignedUrl true; ElevenLabsOpen],
     [Console log "[ElevenLabs] Unhandled message type:"])
  /\ step outbound_js (final outbound_js initial [SignedUrl true; ElevenLabsOpen])
       (ElevenLabsMessage (Text (ping_message 42)))
  = (final outbound_js initial [SignedUrl true; ElevenLabsOpen],
     [AgentSend (JObj [("type", JStr "pong"); ("event_id", JNum 42)])]).
Proof. split; reflexivity. Qed.

(** ** Agent audio *)

(** X12.  Both implementations pass a truthy [audio.chunk] through to the
    telephony side, in one frame tagged with the session's [streamSid]. *)
Lemma audio_chunk_forwarded (i : implementation) (s : session) (m audio p : json) :
  member m "type" = Some (JStr "audio") ->
  member m "audio" = Some audio ->
  member audio "chunk" = Some p ->
  truthy (Some p) = true ->
  truthy (streamSid s) = true ->
  exists sid,
    streamSid s = Some sid
    /\ fst (on_message i (Text m) s) = (Returns tt, s)
    /\ wire (snd (on_message i (Text m) s)) =
         [TwilioSend (JObj [("event", JStr "media"); ("streamSid", sid);
                            ("media", JObj [("payload", p)])])].
Proof.
  intros Ht Ha Hc Hp Hs.
  destruct (streamSid s) as [sid|] eqn:Hsid; [|discriminate Hs].
  exists sid. split; [reflexivity|].
  destruct m; try discriminate Ht. destruct audio; try discriminate Hc.
  cbn in Ht, Ha, Hc, Hp, Hs.
  destruct i; unfold_listeners;
    repeat (cbn; first [rewrite Ht | rewrite Ha | rewrite Hc | rewrite Hsid
                       | rewrite Hs | rewrite Hp]);
    split; reflexivity.
Qed.

(** X14.  Both implementations drop an [audio] message while [streamSid] is
    falsy: a console line and nothing else. *)
Lemma audio_dropped_without_streamSid (i : implementation) (s : session) (m : json) :
  member m "type" = Some (JStr "audio") ->
  truthy (streamSid s) = false ->
  on_message i (Text m) s =
    (Returns tt, s,
     [Console (match i with outbound_js => log | part_000 => warn end)
        "[ElevenLabs] Received audio but no StreamSid."]).
Proof.
  intros Ht Hs. destruct m; try discriminate Ht. cbn in Ht.
  destruct i; unfold_listeners; repeat (cbn; first [rewrite Ht | rewrite Hs]);
    reflexivity.
Qed.

(** X13.  [src/outbound.js] falls back to [audio_event.audio_base_64] when
    [audio.chunk] is not truthy. *)
Lemma outbound_forwards_audio_event (s : session) (m ae p sid : json) :
  member m "type" = Some (JStr "audio") ->
  truthy (opt_member (member m "audio") "chunk") = false ->
  member m "audio_event" = Some ae ->
  member ae "audio_base_64" = Some p ->
  streamSid s = Some sid ->
  truthy (Some sid) = true ->
  fst (Outbound.on_message (Text m) s) = (Returns tt, s)
  /\ wire (snd (Outbound.on_message (Text m) s)) =
       [TwilioSend (JObj [("event", JStr "media"); ("streamSid", sid);
                          ("media", JObj [("payload", p)])])].
Proof.
  intros Ht Hc Ha Hp Hsid Hs.
  destruct m; try discriminate Ht. destruct ae; try discriminate Hp.
  cbn in Ht, Hc, Ha, Hp, Hs.
  unfold_listeners;
    repeat (cbn; first [rewrite Ht | rewrite Hc | rewrite Ha | rewrite Hp
                       | rewrite Hsid | rewrite Hs]);
    split; reflexivity.
Qed.

(** C5 fails on [src/unnamed/part_000]: with [streamSid] set to ["S1"], the
    agent message [{type: "audio", audio_event: {audio_base_64: "AAAA"}}]
    produces no telephony frame, only the warning that there is no
    StreamSid; [src/outbound.js] forwards the same message as
    [{event: "media", streamSid: "S1", media: {payload: "AAAA"}}]. *)
Theorem part_000_drops_audio_event :
  let pre := [SignedUrl true;
              TwilioMessage (Text (start_message "S1" "C1" (parameters "X" "Y")));
              ElevenLabsOpen] in
  streamSid (final part_000 initial pre) = Some (JStr "S1")
  /\ step part_000 (final part_000 initial pre)
       (ElevenLabsMessage (Text (audio_event_message "AAAA")))
     = (final part_000 initial pre,
        [Console warn "[ElevenLabs] Received audio but no StreamSid."])
  /\ twilio_frames (snd (step outbound_js (final outbound_js initial pre)
                           (ElevenLabsMessage (Text (audio_event_message "AAAA")))))
     = [JObj [("event", JStr "media"); ("streamSid", JStr "S1");
              ("media", JObj [("payload", JStr "AAAA")])]].
Proof. repeat split; reflexivity. Qed.

(** ** Stop *)


Lemma step_consistent (i : implementation) (s : session) (e : event) :
  consistent s = true -> consistent (fst (step i s e)) = true.
Proof.
  unfold consistent.
  destruct i, e as [ok| |d| |d| |]; try destruct d as [t|m]; try destruct m;
    unfold_listeners; unfold agent_is_open; cbn; branch; cbn in *; tidy;
    try congruence; auto;
    try (destruct (awaiting s); cbn in *; congruence).
Qed.

(** A turn of [src/unnamed/part_000] calls [close()] at most once, only on
    an open socket, which is then spent; and a spent socket stays spent. *)
Lemma part_000_step_closes (s : session) (e : event) :
  consistent s = true ->
  (closes (snd (step part_000 s e)) = 0
   /\ (spent s = true -> spent (fst (step part_000 s e)) = true))
  \/ (closes (snd (step part_000 s e)) = 1
      /\ spent s = false /\ spent (fst (step part_000 s e)) = true).
Proof.
  unfold consistent.
  destruct e as [ok| |d| |d| |]; try destruct d as [t|m]; try destruct m;
    unfold_listeners; unfold agent_is_open, spent; cbn; branch; cbn in *; tidy;
    cbn in *; try discriminate; try congruence; auto.
Qed.

Lemma part_000_spent_never_closes (es : list event) (s : session) :
  consistent s = true -> spent s = true -> closes (trace part_000 s es) = 0.
Proof.
  revert s. induction es as [|e es IH]; intros s Hc Hs; [reflexivity|].
  unfold trace. rewrite run_cons. cbn [snd]. rewrite closes_app.
  destruct (part_000_step_closes s e Hc) as [[H0 H1]|[_ [H _]]]; [|congruence].
  rewrite H0, (IH _ (step_consistent _ _ _ Hc) (H1 Hs)). reflexivity.
Qed.

(** X9.  In [src/unnamed/part_000], whatever the events and however many [stop]
    messages are among them, [close()] is called on the agent socket at
    most once. *)
Lemma part_000_closes_at_most_once (es : list event) (s : session) :
  consistent s = true -> closes (trace part_000 s es) <= 1.
Proof.
  revert s. induction es as [|e es IH]; intros s Hc; [cbn; lia|].
  unfold trace. rewrite run_cons. cbn [snd]. rewrite closes_app.
  pose proof (step_consistent part_000 s e Hc) as Hc'.
  destruct (part_000_step_closes s e Hc) as [[H0 _]|[H1 [_ Hs]]].
  - rewrite H0. now apply IH.
  - rewrite H1, (part_000_spent_never_closes es _ Hc' Hs). lia.
Qed.

(** The [stop] case of [src/outbound.js] is [elevenLabsWs?.close()], with
    no test of the ready state, so two [stop] messages make two [close()]
    calls, the second on a socket that is already closing;
    [src/unnamed/part_000], which tests [readyState === WebSocket.OPEN],
    makes one. *)
Theorem outbound_js_closes_twice :
  closes (trace outbound_js initial
            [SignedUrl true; ElevenLabsOpen;
             TwilioMessage (Text stop_message); TwilioMessage (Text stop_message)]) = 2
  /\ closes (trace part_000 initial
            [SignedUrl true; ElevenLabsOpen;
             TwilioMessage (Text stop_message); TwilioMessage (Text stop_message)]) = 1.
Proof. split; reflexivity. Qed.

(** ** The two implementations *)

Lemma step_agree (s : session) (e : event) :
  agree s e = true ->
  fst (step outbound_js s e) = fst (step part_000 s e)
  /\ wire (snd (step outbound_js s e)) = wire (snd (step part_000 s e)).
Proof.
  intros H.
  destruct e as [ok| |d| |d| |]; try destruct d as [t|m]; try destruct m;
    unfold_listeners; unfold agent_is_open, agree in *; cbn in *; branch; cbn in *;
    tidy; try discriminate; try congruence; auto;
    repeat match goal with
      | H : is_str _ _ = true |- _ => apply is_str_true in H
      end;
    try congruence.
  apply andb_prop in H. destruct H as [Hp Hf].
  unfold or_else. rewrite Hp, Hf. auto.
Qed.

Lemma run_agree (es : list event) (s : session) :
  agree_along s es = true ->
  final outbound_js s es = final part_000 s es
  /\ wire (trace outbound_js s es) = wire (trace part_000 s es).
Proof.
  revert s. induction es as [|e es IH]; intros s H; [split; reflexivity|].
  cbn in H. apply andb_prop in H. destruct H as [He Hes].
  destruct (step_agree s e He) as [Hs Ho].
  destruct (IH _ Hes) as [IHs IHo].
  unfold final, trace. rewrite !run_cons. cbn [fst snd].
  rewrite !wire_app, <- Hs, Ho. now rewrite IHs, IHo.
Qed.

(** C6, as the spec has it, fails: after [start] and the opening of the
    agent socket, a [ping] with event id 42 is answered by
    [src/outbound.js] and not by [src/unnamed/part_000], so the calls made
    on the agent socket differ. *)
Lemma implementations_differ_on_ping :
  wire (trace outbound_js initial
          [SignedUrl true;
           TwilioMessage (Text (start_message "S1" "C1" (parameters "X" "Y")));
           ElevenLabsOpen; ElevenLabsMessage (Text (ping_message 42))])
  <> wire (trace part_000 initial
          [SignedUrl true;
           TwilioMessage (Text (start_message "S1" "C1" (parameters "X" "Y")));
           ElevenLabsOpen; ElevenLabsMessage (Text (ping_message 42))]).
Proof. cbn. discriminate. Qed.

(** C6, amended.  On every sequence of events along which each turn is one
    the two implementations agree on ([agree]: the agent socket opens with
    truthy [prompt] and [first_message] parameters; an agent [audio]
    message finds [streamSid] falsy or carries a truthy [audio.chunk]; an
    agent [ping] carries no truthy event id; a [stop] finds the agent socket
    absent or open), the two implementations end in the same session and
    make the same calls, in the same order, on the two sockets. *)
Theorem implementations_agree (es : list event) (s : session) :
  agree_along s es = true ->
  final outbound_js s es = final part_000 s es
  /\ wire (trace outbound_js s es) = wire (trace part_000 s es).
Proof. apply run_agree. Qed.

Lemma implementations_agree_witness :
  final outbound_js initial
    [SignedUrl true;
     TwilioMessage (Text (start_message "S1" "C1" (parameters "X" "Y")));
     ElevenLabsOpen;
     TwilioMessage (Text (media_message "AAAA"));
     ElevenLabsMessage (Text (audio_chunk_message "BBBB"));
     TwilioMessage (Text stop_message)]
  = final part_000 initial
    [SignedUrl true;
     TwilioMessage (Text (start_message "S1" "C1" (parameters "X" "Y")));
     ElevenLabsOpen;
     TwilioMessage (Text (media_message "AAAA"));
     ElevenLabsMessage (Text (audio_chunk_message "BBBB"));
     TwilioMessage (Text stop_message)]
  /\ wire (trace outbound_js initial
    [SignedUrl true;
     TwilioMessage (Text (start_message "S1" "C1" (parameters "X" "Y")));
     ElevenLabsOpen;
     TwilioMessage (Text (media_message "AAAA"));
     ElevenLabsMessage (Text (audio_chunk_message "BBBB"));
     TwilioMessage (Text stop_message)])
  = wire (trace part_000 initial
    [SignedUrl true;
     TwilioMessage (Text (start_message "S1" "C1" (parameters "X" "Y")));
     ElevenLabsOpen;
     TwilioMessage (Text (media_message "AAAA"));
     ElevenLabsMessage (Text (audio_chunk_message "BBBB"));
     TwilioMessage (Text stop_message)]).
Proof. apply implementations_agree. reflexivity. Defined.


(** ** Further properties of sessions *)

(** Whatever a run does, some turn of it did. *)
Lemma in_trace_inv (i : implementation) (a : action) (es : list event) (s : session) :
  In a (trace i s es) ->
  exists pre e post,
    es = pre ++ e :: post /\ In a (snd (step i (final i s pre) e)).
Proof.
  revert s. induction es as [|e es IH]; intros s H; [destruct H|].
  unfold trace in H. rewrite run_cons in H. cbn [snd] in H.
  apply in_app_or in H. destruct H as [H|H].
  - exists [], e, es. split; [reflexivity|exact H].
  - destruct (IH _ H) as [pre [e' [post [-> Hin]]]].
    exists (e :: pre), e', post. split; [reflexivity|].
    unfold final. rewrite run_cons. exact Hin.
Qed.

Lemma run_consistent (i : implementation) (es : list event) (s : session) :
  consistent s = true -> consistent (final i s es) = true.
Proof.
  revert s. induction es as [|e es IH]; intros s H; [exact H|].
  unfold final. rewrite run_cons. cbn [fst]. apply IH. now apply step_consistent.
Qed.

(** A frame goes to the telephony side only from a session whose
    [streamSid] is truthy, and it is a [media] frame tagged with it. *)
Lemma telephony_frame_shape (i : implementation) (s : session) (e : event) (f : json) :
  In (TwilioSend f) (snd (step i s e)) ->
  exists sid p,
    streamSid s = Some sid /\ truthy (Some sid) = true
    /\ f = audioData (Some sid) p.
Proof.
  destruct i, e as [ok| |d| |d| |]; try destruct d as [t|m]; try destruct m;
    unfold_listeners; unfold agent_is_open; cbn; branch; cbn in *;
    intros H; repeat (destruct H as [H|H]; try discriminate H); try contradiction;
    injection H as <-;
    (destruct (streamSid s) as [sid|] eqn:Hsid; [|discriminate]);
    eexists sid, _; repeat split; assumption || reflexivity.
Qed.

(** [streamSid] changes only on a [start] message, to what it supplies. *)
Lemma streamSid_after_step (i : implementation) (s : session) (e : event) :
  streamSid (fst (step i s e)) = streamSid s
  \/ exists m st,
       e = TwilioMessage (Text m)
       /\ member m "event" = Some (JStr "start")
       /\ member m "start" = Some st
       /\ streamSid (fst (step i s e)) = member st "streamSid".
Proof.
  destruct i, e as [ok| |d| |d| |]; try destruct d as [t|m]; try destruct m;
    unfold_listeners; unfold agent_is_open; cbn; branch; cbn in *; auto;
    right;
    repeat match goal with
      | H : is_str _ _ = true |- _ => apply is_str_true in H
      end;
    eexists _, _; (split; [reflexivity|]); cbn; repeat split; eassumption || reflexivity.
Qed.

Lemma streamSid_supplied (i : implementation) (es : list event) (sid : json) :
  streamSid (final i initial es) = Some sid ->
  truthy (Some sid) = true ->
  exists e, In e es /\ supplies_streamSid e sid.
Proof.
  induction es as [|e es IH] using rev_ind; intros Hs Ht.
  - cbn in Hs. injection Hs as <-. discriminate Ht.
  - rewrite final_app in Hs. unfold final at 1 in Hs. rewrite run_cons in Hs.
    cbn [fst final run] in Hs.
    destruct (streamSid_after_step i (final i initial es) e) as [Heq|[m [st [-> [He [Hst Heq]]]]]].
    + rewrite Heq in Hs. destruct (IH Hs Ht) as [e0 [Hin Hsup]].
      exists e0. split; [apply in_or_app; now left|exact Hsup].
    + exists (TwilioMessage (Text m)). split; [apply in_or_app; right; now left|].
      exists m, st. repeat split; congruence.
Qed.

(** X2.  Every frame the relay sends to the telephony side is a [media]
    frame tagged with a truthy [streamSid] that a [start] message received
    earlier in the session supplied; in particular nothing is sent to the
    telephony side before a [start] message has arrived. *)
Theorem telephony_frames_carry_supplied_streamSid
    (i : implementation) (es : list event) (f : json) :
  In (TwilioSend f) (trace i initial es) ->
  exists pre e post sid p,
    es = pre ++ e :: post
    /\ f = audioData (Some sid) p
    /\ truthy (Some sid) = true
    /\ exists e0, In e0 pre /\ supplies_streamSid e0 sid.
Proof.
  intros H. destruct (in_trace_inv _ _ _ _ H) as [pre [e [post [-> Hin]]]].
  destruct (telephony_frame_shape _ _ _ _ Hin) as [sid [p [Hs [Ht ->]]]].
  exists pre, e, post, sid, p. repeat split; trivial.
  now apply (streamSid_supplied i).
Qed.

Lemma telephony_frames_carry_supplied_streamSid_witness :
  exists pre e post sid p,
    [SignedUrl true;
     TwilioMessage (Text (start_message "S1" "C1" (parameters "X" "Y")));
     ElevenLabsOpen; ElevenLabsMessage (Text (audio_chunk_message "AAAA"))]
      = pre ++ e :: post
    /\ JObj [("event", JStr "media"); ("streamSid", JStr "S1");
             ("media", JObj [("payload", JStr "AAAA")])] = audioData (Some sid) p
    /\ truthy (Some sid) = true
    /\ exists e0, In e0 pre /\ supplies_streamSid e0 sid.
Proof.
  apply (telephony_frames_carry_supplied_streamSid part_000).
  cbn. auto 10.
Defined.

Lemma audioMessage_not_initialization (v : value) :
  is_initialization (audioMessage v) = false.
Proof. now destruct v. Qed.

Lemma pong_not_initialization (v : value) : is_initialization (pong v) = false.
Proof. now destruct v. Qed.

Lemma step_initializations (i : implementation) (s : session) (e : event) :
  consistent s = true ->
  (initializations (snd (step i s e)) = 0
   /\ (2 <= rank (elevenLabsWs s) -> 2 <= rank (elevenLabsWs (fst (step i s e)))))
  \/ (initializations (snd (step i s e)) = 1
      /\ elevenLabsWs s = Some CONNECTING
      /\ elevenLabsWs (fst (step i s e)) = Some OPEN).
Proof.
  unfold consistent. destruct s as [sid cid w cp aw].
  destruct i, e as [ok| |d| |d| |]; try destruct d as [t|m]; try destruct m;
    unfold_listeners; unfold agent_is_open, initializations; cbn; branch; cbn in *; tidy;
    try discriminate;
    rewrite ?audioMessage_not_initialization, ?pong_not_initialization in *;
    try discriminate; auto; left; split; auto; lia.
Qed.

Lemma opened_never_initializes (i : implementation) (es : list event) (s : session) :
  consistent s = true ->
  2 <= rank (elevenLabsWs s) -> initializations (trace i s es) = 0.
Proof.
  revert s. induction es as [|e es IH]; intros s Hc H; [reflexivity|].
  unfold trace. rewrite run_cons. cbn [snd].
  unfold initializations in *. rewrite agent_frames_app, filter_app, length_app.
  destruct (step_initializations i s e Hc) as [[H0 H1]|[_ [Hw _]]].
  - unfold initializations in H0. rewrite H0. cbn.
    apply IH; auto using step_consistent.
  - rewrite Hw in H. cbn in H. lia.
Qed.

(** X4.  In one session at most one initialization frame is sent to the
    agent, whatever the events. *)
Theorem at_most_one_initialization (i : implementation) (es : list event) :
  initializations (trace i initial es) <= 1.
Proof.
  assert (G : forall s, consistent s = true -> initializations (trace i s es) <= 1).
  { induction es as [|e es IH]; intros s Hc; [cbn; lia|].
    unfold trace. rewrite run_cons. cbn [snd].
    unfold initializations. rewrite agent_frames_app, filter_app, length_app.
    pose proof (step_consistent i s e Hc) as Hc'.
    destruct (step_initializations i s e Hc) as [[H0 _]|[H1 [_ Ho]]].
    - unfold initializations in H0. rewrite H0. now apply IH.
    - unfold initializations in H1. rewrite H1.
      pose proof (opened_never_initializes i es (fst (step i s e)) Hc') as H.
      rewrite Ho in H. unfold initializations in H. rewrite H; [lia|cbn; lia]. }
  now apply G.
Qed.

Lemma trace_cons (i : implementation) (e : event) (es : list event) (s : session) :
  trace i s (e :: es) = snd (step i s e) ++ trace i (fst (step i s e)) es.
Proof. unfold trace at 1. now rewrite run_cons. Qed.

Lemma final_cons (i : implementation) (e : event) (es : list event) (s : session) :
  final i s (e :: es) = final i (fst (step i s e)) es.
Proof. unfold final at 1. now rewrite run_cons. Qed.

(** Without a socket and with nothing pending, a turn makes no call on
    either socket and leaves the agent variable [null]. *)
Lemma step_without_agent (i : implementation) (s : session) (e : event) :
  awaiting s = false -> elevenLabsWs s = None ->
  wire (snd (step i s e)) = []
  /\ awaiting (fst (step i s e)) = false
  /\ elevenLabsWs (fst (step i s e)) = None.
Proof.
  destruct s as [sid cid w cp aw]. cbn. intros -> ->.
  destruct i, e as [ok| |d| |d| |]; try destruct d as [t|m]; try destruct m;
    unfold_listeners; unfold agent_is_open; cbn; branch; cbn in *; auto.
Qed.

Lemma run_without_agent (i : implementation) (es : list event) (s : session) :
  awaiting s = false -> elevenLabsWs s = None ->
  wire (trace i s es) = [] /\ elevenLabsWs (final i s es) = None.
Proof.
  revert s. induction es as [|e es IH]; intros s Ha Hw; [split; [reflexivity|exact Hw]|].
  destruct (step_without_agent i s e Ha Hw) as [Ho [Ha' Hw']].
  destruct (IH _ Ha' Hw') as [IHo IHw].
  unfold trace, final. rewrite run_cons. cbn [fst snd].
  rewrite wire_app, Ho, IHo. split; [reflexivity|exact IHw].
Qed.

Lemma step_awaiting (i : implementation) (s : session) (e : event) :
  awaiting (fst (step i s e)) = true -> awaiting s = true.
Proof.
  destruct s as [sid cid w cp aw].
  destruct i, e as [ok| |d| |d| |]; try destruct d as [t|m]; try destruct m;
    unfold_listeners; unfold agent_is_open; cbn; branch; cbn in *; auto.
Qed.

Lemma run_awaiting (i : implementation) (es : list event) (s : session) :
  awaiting (final i s es) = true -> awaiting s = true.
Proof.
  revert s. induction es as [|e es IH]; intros s H; [exact H|].
  unfold final in H. rewrite run_cons in H. cbn [fst] in H.
  eapply step_awaiting, IH, H.
Qed.

Lemma step_no_socket (i : implementation) (s : session) (e : event) :
  elevenLabsWs s = None -> wire (snd (step i s e)) = [].
Proof.
  destruct s as [sid cid w cp aw]. cbn. intros ->.
  destruct i, e as [ok| |d| |d| |]; try destruct d as [t|m]; try destruct m;
    unfold_listeners; unfold agent_is_open; cbn; branch; cbn in *; auto.
Qed.

Lemma awaiting_no_socket (s : session) :
  consistent s = true -> awaiting s = true -> elevenLabsWs s = None.
Proof.
  unfold consistent. intros Hc Ha. rewrite Ha in Hc. cbn in Hc.
  now destruct (elevenLabsWs s).
Qed.

Lemma run_while_awaiting (i : implementation) (es : list event) (s : session) :
  consistent s = true -> awaiting (final i s es) = true -> wire (trace i s es) = [].
Proof.
  revert s. induction es as [|e es IH]; intros s Hc H; [reflexivity|].
  unfold final in H. rewrite run_cons in H. cbn [fst] in H.
  unfold trace. rewrite run_cons. cbn [snd]. rewrite wire_app.
  rewrite (IH _ (step_consistent i s e Hc) H).
  rewrite step_no_socket; [reflexivity|].
  apply awaiting_no_socket; [exact Hc|].
  eapply step_awaiting, run_awaiting, H.
Qed.

(** X5.  When [getSignedUrl] fails, the failure is logged twice (by
    [getSignedUrl] and by [setupElevenLabs]) and that is the end of the agent
    leg: whatever arrived before and whatever follows, the relay never calls
    [send] or [close] on an agent socket, and it sends nothing to the
    telephony side either. *)
Theorem failed_setup_silences_the_relay
    (i : implementation) (pre post : list event) :
  awaiting (final i initial pre) = true ->
  snd (step i (final i initial pre) (SignedUrl false)) =
    [Console error "Error getting signed URL:"; Console error "[ElevenLabs] Setup error:"]
  /\ wire (trace i initial (pre ++ SignedUrl false :: post)) = []
  /\ elevenLabsWs (final i initial (pre ++ SignedUrl false :: post)) = None.
Proof.
  intros Ha.
  pose proof (run_consistent i pre initial eq_refl) as Hc.
  pose proof (awaiting_no_socket _ Hc Ha) as Hw.
  pose proof (run_while_awaiting i pre initial eq_refl Ha) as Hpre.
  assert (Hstep : step i (final i initial pre) (SignedUrl false) =
                  (set_awaiting false (final i initial pre),
                   [Console error "Error getting signed URL:";
                    Console error "[ElevenLabs] Setup error:"])).
  { unfold_listeners. cbn. rewrite Ha. reflexivity. }
  destruct (run_without_agent i post (set_awaiting false (final i initial pre)) eq_refl Hw)
    as [Ho Hf].
  split; [now rewrite Hstep|].
  rewrite trace_app, final_app, wire_app, Hpre, trace_cons, final_cons, Hstep.
  cbn [fst snd]. rewrite wire_app, Ho, Hf. split; reflexivity.
Qed.

Lemma failed_setup_silences_the_relay_witness :
  wire (trace outbound_js initial
          ([TwilioMessage (Text (start_message "S1" "C1" (parameters "X" "Y")))]
             ++ SignedUrl false
             :: [TwilioMessage (Text (media_message "AAAA"));
                 TwilioMessage (Text stop_message)])) = [].
Proof.
  apply (failed_setup_silences_the_relay outbound_js
           [TwilioMessage (Text (start_message "S1" "C1" (parameters "X" "Y")))]).
  reflexivity.
Defined.






Lemma step_same_but_callSid (i : implementation) (s1 s2 : session) (e : event) :
  same_but_callSid s1 s2 ->
  snd (step i s1 e) = snd (step i s2 e)
  /\ same_but_callSid (fst (step i s1 e)) (fst (step i s2 e)).
Proof.
  unfold same_but_callSid.
  destruct s1 as [sid cid w cp aw], s2 as [sid' cid' w' cp' aw']. cbn.
  intros [<- [<- [<- <-]]].
  destruct i, e as [ok| |d| |d| |]; try destruct d as [t|m]; try destruct m;
    unfold_listeners; unfold agent_is_open; cbn; branch; cbn in *; auto 6.
Qed.

(** X7.  [callSid] is only stored: two sessions that differ at most in
    [callSid] make the same calls on both sockets on every sequence of
    events, and still differ at most in [callSid] afterwards. *)
Theorem callSid_is_never_used
    (i : implementation) (es : list event) (s1 s2 : session) :
  same_but_callSid s1 s2 ->
  wire (trace i s1 es) = wire (trace i s2 es)
  /\ same_but_callSid (final i s1 es) (final i s2 es).
Proof.
  revert s1 s2. induction es as [|e es IH]; intros s1 s2 H; [split; [reflexivity|exact H]|].
  destruct (step_same_but_callSid i s1 s2 e H) as [Ho Hs].
  destruct (IH _ _ Hs) as [IHo IHs].
  rewrite !trace_cons, !final_cons, !wire_app, Ho, IHo. split; [reflexivity|exact IHs].
Qed.

Lemma callSid_is_never_used_witness :
  wire (trace outbound_js (set_callSid (Some (JStr "C9")) initial)
          [SignedUrl true; ElevenLabsOpen; TwilioMessage (Text (media_message "AAAA"))])
  = wire (trace outbound_js initial
          [SignedUrl true; ElevenLabsOpen; TwilioMessage (Text (media_message "AAAA"))]).
Proof.
  apply (callSid_is_never_used outbound_js).
  repeat split.
Defined.

Lemma agent_audio_forwarded (i : implementation) (s : session) (e : event) (c sid : json) :
  agent_audio e c ->
  elevenLabsWs s = Some OPEN ->
  streamSid s = Some sid -> truthy (Some sid) = true ->
  fst (step i s e) = s
  /\ wire (snd (step i s e)) =
       [TwilioSend (JObj [("event", JStr "media"); ("streamSid", sid);
                          ("media", JObj [("payload", c)])])].
Proof.
  intros [m [audio [-> [Ht [Ha [Hc Hct]]]]]] Hw Hs Hst.
  destruct m; try discriminate Ht. destruct audio; try discriminate Hc.
  destruct s as [sid0 cid w cp aw]. cbn in Ht, Ha, Hc, Hct, Hw, Hs, Hst. subst w sid0.
  destruct i; unfold_listeners;
    repeat (cbn; first [rewrite Ht | rewrite Ha | rewrite Hc | rewrite Hst | rewrite Hct]);
    split; reflexivity.
Qed.

Lemma caller_audio_forwarded (i : implementation) (s : session) (e : event) (p : json) :
  caller_audio e p ->
  elevenLabsWs s = Some OPEN ->
  step i s e = (s, [AgentSend (JObj [("user_audio_chunk", p)])]).
Proof.
  intros [m [media [-> [He [Hm Hp]]]]] Hw.
  unfold step, dispatch.
  rewrite (media_while_open i s m media p He Hm Hp); [reflexivity|].
  unfold agent_is_open. now rewrite Hw.
Qed.

(** X8.  While the agent socket is open and [streamSid] is set, audio is
    relayed one for one in both directions and in the order of arrival:
    each telephony [media] message becomes one [user_audio_chunk] frame to
    the agent, each agent [audio] message with a chunk becomes one [media]
    frame to the telephony side, nothing else is sent, and the session is
    left as it was. *)
Theorem steady_state_relay
    (i : implementation) (s : session) (sid : json) (es : list event) (o : list action) :
  elevenLabsWs s = Some OPEN ->
  streamSid s = Some sid -> truthy (Some sid) = true ->
  relayed sid es o ->
  final i s es = s /\ wire (trace i s es) = o.
Proof.
  intros Hw Hs Ht Hr. induction Hr as [|e p es o Hc _ [IHs IHo]|e c es o Ha _ [IHs IHo]].
  - split; reflexivity.
  - rewrite final_cons, trace_cons, (caller_audio_forwarded i s e p Hc Hw). cbn [fst snd].
    rewrite wire_app, IHs, IHo. split; reflexivity.
  - destruct (agent_audio_forwarded i s e c sid Ha Hw Hs Ht) as [Hf Ho].
    rewrite final_cons, trace_cons, wire_app, Hf, Ho, IHs, IHo. split; reflexivity.
Qed.

(** ** Properties of the callback URL *)

Lemma percent_is_reserved : unreserved "%" = false.
Proof. reflexivity. Qed.

Lemma decode_plain (c : ascii) (rest : string) :
  unreserved c = true ->
  percent_decode (String c rest) = option_map (String c) (percent_decode rest).
Proof.
  intros H. cbn [percent_decode].
  destruct (c =? "%")%char eqn:E; [|reflexivity].
  apply Ascii.eqb_eq in E. subst c. discriminate H.
Qed.

Lemma decode_escape (c : ascii) (rest : string) :
  percent_decode
    (String "%" (String (hex_digit (nat_of_ascii c / 16))
                   (String (hex_digit (nat_of_ascii c mod 16)) rest)))
  = option_map (String c) (percent_decode rest).
Proof.
  cbn [percent_decode]. rewrite Ascii.eqb_refl.
  assert (H : forall c, hex_value (hex_digit (nat_of_ascii c / 16)) = Some (nat_of_ascii c / 16)
                   /\ hex_value (hex_digit (nat_of_ascii c mod 16)) = Some (nat_of_ascii c mod 16)
                   /\ ascii_of_nat (16 * (nat_of_ascii c / 16) + nat_of_ascii c mod 16) = c).
  { intros [[] [] [] [] [] [] [] []]; vm_compute; repeat split. }
  destruct (H c) as [-> [-> E]].
  destruct (percent_decode rest); unfold option_map; [now rewrite E|reflexivity].
Qed.

Lemma decode_encoded (s : string) :
  percent_decode (encodeURIComponent s) = Some s.
Proof.
  induction s as [|c s IH]; [reflexivity|].
  cbn [encodeURIComponent]. destruct (unreserved c) eqn:E.
  - rewrite decode_plain by exact E. now rewrite IH.
  - rewrite decode_escape. now rewrite IH.
Qed.

Lemma encodeURIComponent_inj (s t : string) :
  encodeURIComponent s = encodeURIComponent t -> s = t.
Proof.
  intros H. apply (f_equal percent_decode) in H.
  rewrite !decode_encoded in H. now injection H.
Qed.

(** X17.  [encodeURIComponent] loses nothing: reading the escapes back gives
    the string that was encoded, so distinct strings have distinct
    encodings. *)
Theorem encodeURIComponent_round_trip (s : string) :
  percent_decode (encodeURIComponent s) = Some s
  /\ forall t, encodeURIComponent s = encodeURIComponent t -> s = t.
Proof. split; [apply decode_encoded|apply encodeURIComponent_inj]. Qed.

Lemma hex_digit_unreserved (n : nat) : unreserved (hex_digit n) = true.
Proof.
  unfold hex_digit.
  do 16 (destruct n as [|n]; [reflexivity|]). destruct n; reflexivity.
Qed.

Lemma encoded_chars (s : string) (c : ascii) :
  In c (list_ascii_of_string (encodeURIComponent s)) ->
  unreserved c = true \/ c = "%"%char.
Proof.
  induction s as [|a s IH]; [intros []|].
  cbn [encodeURIComponent]. destruct (unreserved a) eqn:E;
    cbn [list_ascii_of_string In].
  - intros [Hc|H]; [left; congruence|auto].
  - intros [Hc|[Hc|[Hc|H]]]; auto;
      left; rewrite <- Hc; apply hex_digit_unreserved.
Qed.

Lemma append_inj_l (p x y : string) : (p ++ x = p ++ y)%string -> x = y.
Proof.
  induction p as [|c p IH]; cbn; [trivial|].
  intros H. injection H as H. auto.
Qed.

(** Two strings free of [&] followed by [&] and anything split the same
    way. *)
Lemma split_at_ampersand (a a' r r' : string) :
  ~ In "&"%char (list_ascii_of_string a) ->
  ~ In "&"%char (list_ascii_of_string a') ->
  (a ++ String "&" r = a' ++ String "&" r')%string ->
  a = a' /\ r = r'.
Proof.
  revert a'. induction a as [|c a IH]; intros [|c' a'] Ha Ha' H; cbn in *.
  - injection H as ->. auto.
  - injection H as <- _. exfalso. apply Ha'. now left.
  - injection H as -> _. exfalso. apply Ha. now left.
  - injection H as -> H.
    destruct (IH a') as [-> ->]; auto.
Qed.

Lemma encoded_has_no_ampersand (s : string) :
  ~ In "&"%char (list_ascii_of_string (encodeURIComponent s)).
Proof.
  intros H. apply encoded_chars in H.
  destruct H as [H|H]; discriminate H.
Qed.

(** X16.  The output of [encodeURIComponent] consists of unreserved
    characters and [%] only; in particular it contains none of [& = ? #
    / + :] nor a space, the characters that delimit the parts of a URL and
    of a query string. *)
Theorem encodeURIComponent_is_safe (s : string) :
  forallb (fun c => unreserved c || (c =? "%")%char)
          (list_ascii_of_string (encodeURIComponent s)) = true
  /\ forallb (fun c => negb (existsb (Ascii.eqb c)
                                    (list_ascii_of_string (encodeURIComponent s))))
             (list_ascii_of_string "&=?#/+: ") = true.
Proof.
  assert (H : forallb (fun c => unreserved c || (c =? "%")%char)
                      (list_ascii_of_string (encodeURIComponent s)) = true).
  { apply forallb_forall. intros c Hc. apply encoded_chars in Hc.
    destruct Hc as [->| ->]; [reflexivity|]. now rewrite orb_true_r. }
  split; [exact H|].
  apply forallb_forall. intros d Hd. apply negb_true_iff.
  destruct (existsb (Ascii.eqb d) (list_ascii_of_string (encodeURIComponent s))) eqn:E;
    [|reflexivity].
  apply existsb_exists in E. destruct E as [c [Hc Heq]].
  apply Ascii.eqb_eq in Heq. subst c.
  apply encoded_chars in Hc.
  cbn in Hd. repeat (destruct Hd as [<-|Hd]; [destruct Hc as [Hc|Hc]; discriminate Hc|]).
  destruct Hd.
Qed.

(** X18.  The callback URL handed to Twilio determines the two texts it
    encodes: for a given host, two callback URLs are equal only if the
    texts of the prompts are equal and the texts of the first messages are
    equal, whatever characters these contain.  (The text of a field is its
    string conversion, so a request without a prompt and one whose prompt
    is the string [undefined] have the same text and the same URL.) *)
Theorem callback_url_determines_parameters (host p f p' f' : string) :
  callback_url host p f = callback_url host p' f' -> p = p' /\ f = f'.
Proof.
  unfold callback_url. intros H.
  apply append_inj_l, append_inj_l, append_inj_l in H.
  change ("&first_message=" ++ encodeURIComponent f)%string
    with (String "&" ("first_message=" ++ encodeURIComponent f))%string in H.
  change ("&first_message=" ++ encodeURIComponent f')%string
    with (String "&" ("first_message=" ++ encodeURIComponent f'))%string in H.
  apply split_at_ampersand in H; auto using encoded_has_no_ampersand.
  destruct H as [Hp Hf]. apply append_inj_l in Hf.
  split; now apply encodeURIComponent_inj.
Qed.

Lemma callback_url_determines_parameters_witness :
  "a&b" = "a&b" /\ "x=1" = "x=1".
Proof.
  apply (callback_url_determines_parameters "example.org"). reflexivity.
Defined.

(** ** Properties of the setup and of the route *)

(** X15.  [setupElevenLabs] never throws.  It creates the agent socket
    exactly when the provider answered with a success status and a JSON
    body other than [null] whose [signed_url] the socket constructor
    accepts, and then it logs nothing; in every other case (network
    failure, failure status, body that is not JSON, [null] body, missing or
    unusable [signed_url]) it leaves the session as it was and ends with
    the [console.error] of its [catch].  Either way it makes no call on a
    socket, and session and outcome are those of the event [SignedUrl]
    of the session model. *)
Theorem setupElevenLabs_from_response
    (accepts : value -> bool) (r : fetched) (s : session) :
  fst (setupElevenLabs_from accepts r s) = fst (setupElevenLabs (usable accepts r) s)
  /\ wire (snd (setupElevenLabs_from accepts r s)) = []
  /\ (if usable accepts r
      then snd (setupElevenLabs_from accepts r s) = []
      else exists o,
             snd (setupElevenLabs_from accepts r s)
             = o ++ [Console error "[ElevenLabs] Setup error:"]
             /\ (o = [] \/ o = [Console error "Error getting signed URL:"])).
Proof.
  unfold setupElevenLabs_from, getSignedUrl, signed_url_of, usable, setupElevenLabs.
  destruct r as [|[] st [t|j]]; try destruct j; cbn;
    try destruct (accepts _); cbn; repeat split; eauto;
    first [ exists []; split; [reflexivity|now left]
          | exists [Console error "Error getting signed URL:"];
            split; [reflexivity|now right] ].
Qed.


(** ** The properties above at concrete inputs *)

Lemma steady_state_relay_witness :
  final part_000
    (final part_000 initial
       [SignedUrl true;
        TwilioMessage (Text (start_message "S1" "C1" (parameters "X" "Y")));
        ElevenLabsOpen])
    [TwilioMessage (Text (media_message "AAAA"));
     ElevenLabsMessage (Text (audio_chunk_message "BBBB"))]
  = final part_000 initial
      [SignedUrl true;
       TwilioMessage (Text (start_message "S1" "C1" (parameters "X" "Y")));
       ElevenLabsOpen]
  /\ wire (trace part_000
             (final part_000 initial
                [SignedUrl true;
                 TwilioMessage (Text (start_message "S1" "C1" (parameters "X" "Y")));
                 ElevenLabsOpen])
             [TwilioMessage (Text (media_message "AAAA"));
              ElevenLabsMessage (Text (audio_chunk_message "BBBB"))])
     = [AgentSend (JObj [("user_audio_chunk", JStr "AAAA")]);
        TwilioSend (JObj [("event", JStr "media"); ("streamSid", JStr "S1");
                          ("media", JObj [("payload", JStr "BBBB")])])].
Proof.
  apply (steady_state_relay part_000 _ (JStr "S1")); try reflexivity.
  apply relayed_caller.
  - exists (media_message "AAAA"), (JObj [("payload", JStr "AAAA")]). repeat split.
  - apply relayed_agent; [|apply relayed_nil].
    exists (audio_chunk_message "BBBB"), (JObj [("chunk", JStr "BBBB")]). repeat split.
Defined.

Lemma part_000_closes_at_most_once_witness :
  closes (trace part_000 initial
            [SignedUrl true; ElevenLabsOpen;
             TwilioMessage (Text stop_message); TwilioMessage (Text stop_message)]) <= 1.
Proof. apply part_000_closes_at_most_once. reflexivity. Defined.


Lemma outbound_answers_ping_witness :
  Outbound.on_message (Text (ping_message 42))
    (final outbound_js initial [SignedUrl true; ElevenLabsOpen])
  = (Returns tt, final outbound_js initial [SignedUrl true; ElevenLabsOpen],
     [AgentSend (JObj [("type", JStr "pong"); ("event_id", JNum 42)])]).
Proof.
  apply (outbound_answers_ping (final outbound_js initial [SignedUrl true; ElevenLabsOpen])
           (ping_message 42) (JObj [("event_id", JNum 42)]) (JNum 42) []);
    reflexivity.
Defined.

Lemma audio_chunk_forwarded_witness :
  exists sid,
    streamSid (set_streamSid (Some (JStr "S1")) initial) = Some sid
    /\ fst (on_message part_000 (Text (audio_chunk_message "AAAA"))
              (set_streamSid (Some (JStr "S1")) initial))
       = (Returns tt, set_streamSid (Some (JStr "S1")) initial)
    /\ wire (snd (on_message part_000 (Text (audio_chunk_message "AAAA"))
                    (set_streamSid (Some (JStr "S1")) initial)))
       = [TwilioSend (JObj [("event", JStr "media"); ("streamSid", sid);
                            ("media", JObj [("payload", JStr "AAAA")])])].
Proof.
  apply (audio_chunk_forwarded part_000 (set_streamSid (Some (JStr "S1")) initial)
           (audio_chunk_message "AAAA") (JObj [("chunk", JStr "AAAA")]) (JStr "AAAA"));
    reflexivity.
Defined.

Lemma outbound_forwards_audio_event_witness :
  fst (Outbound.on_message (Text (audio_event_message "AAAA"))
         (set_streamSid (Some (JStr "S1")) initial))
  = (Returns tt, set_streamSid (Some (JStr "S1")) initial)
  /\ wire (snd (Outbound.on_message (Text (audio_event_message "AAAA"))
                  (set_streamSid (Some (JStr "S1")) initial)))
     = [TwilioSend (JObj [("event", JStr "media"); ("streamSid", JStr "S1");
                          ("media", JObj [("payload", JStr "AAAA")])])].
Proof.
  apply (outbound_forwards_audio_event (set_streamSid (Some (JStr "S1")) initial)
           (audio_event_message "AAAA") (JObj [("audio_base_64", JStr "AAAA")])
           (JStr "AAAA") (JStr "S1"));
    reflexivity.
Defined.

Lemma audio_dropped_without_streamSid_witness :
  on_message part_000 (Text (audio_chunk_message "AAAA")) initial
  = (Returns tt, initial, [Console warn "[ElevenLabs] Received audio but no StreamSid."]).
Proof.
  apply (audio_dropped_without_streamSid part_000 initial (audio_chunk_message "AAAA"));
    reflexivity.
Defined.

Lemma encodeURIComponent_round_trip_witness : "a&b" = "a&b".
Proof. apply (encodeURIComponent_round_trip "a&b"). reflexivity. Defined.


(** ** Closing the agent connection at most once *)









(** ** Which events are handled *)

(** X1.  On the full alphabet, the [error] event of the agent socket
    included, exactly one kind of turn leaves the event loop with an
    uncaught exception: an [error] of the agent socket in
    [src/outbound.js], which registers no listener for it.  Every other
    turn, in every session state and on every message, malformed or not,
    is handled; [src/unnamed/part_000] handles them all. *)
Theorem only_agent_error_is_uncaught
    (i : implementation) (x : emission) (s : session) :
  fst (fst (emit_event i x s)) = Uncaught
  <-> i = outbound_js /\ x = ElevenLabsError /\ elevenLabsWs s <> None.
Proof.
  destruct x as [e|]; cbn [emit_event].
  - pose proof (dispatch_returns i e s) as H.
    destruct (dispatch i e s) as [[r s'] out]. cbn in H. subst r. cbn.
    split; [discriminate|]. intros [_ [H _]]. discriminate H.
  - destruct (elevenLabsWs s) as [r|] eqn:Hw.
    + destruct i; cbn.
      * split; [intros _; repeat split; discriminate|reflexivity].
      * split; [discriminate|]. intros [H _]. discriminate H.
    + cbn. split; [discriminate|]. intros [_ [_ H]]. now elim H.
Qed.

Lemma only_agent_error_is_uncaught_witness :
  fst (fst (emit_event outbound_js ElevenLabsError
              (final outbound_js initial [SignedUrl true; ElevenLabsOpen]))) = Uncaught.
Proof.
  apply (only_agent_error_is_uncaught outbound_js ElevenLabsError
           (final outbound_js initial [SignedUrl true; ElevenLabsOpen])).
  repeat split. discriminate.
Defined.
